(** * EVEOai video clipper: audio-intensity analysis and window selection

    Shallow embedding of [videoClipper.py] and [videoClipperv1.py].

    The two scripts share a core: [get_audio_intensity] cuts a decoded
    audio track into 100 ms chunks and computes one RMS value per chunk,
    and the loop of [process_video] averages groups of
    [clip_duration * 10] intensities and requests a clip for every
    group whose average exceeds the threshold.

    Everything the scripts obtain from pydub and NumPy is taken through
    two interfaces ([Pydub], [Numpy]); the program text is translated on
    top of them.  Python's own [range] and list slicing are modelled
    concretely, including the [ValueError] of a zero step. *)

From Stdlib Require Import String DecimalString DecimalPos DecimalZ.
From Stdlib Require Import ZArith List Lia Bool Sorted SpecFloat.
Import ListNotations.
Open Scope Z_scope.

(* ================================================================== *)
(** * Python built-ins used by the scripts *)
(* ================================================================== *)

Module Py.

(** Exceptions the modelled fragment can raise. *)
Inductive exn : Type :=
| ValueError (msg : string).

(** Outcome of a piece of Python code: a value or a raised exception. *)
Inductive result (A : Type) : Type :=
| Ok (a : A)
| Raise (e : exn).
Arguments Ok {A} a.
Arguments Raise {A} e.

Definition bind {A B} (m : result A) (k : A -> result B) : result B :=
  match m with
  | Ok a => k a
  | Raise e => Raise e
  end.

Definition is_ok {A} (m : result A) : bool :=
  match m with Ok _ => true | Raise _ => false end.

(** [len(l)] on a list. *)
Definition len {A} (l : list A) : Z := Z.of_nat (length l).

(** Number of elements of [range(start, stop, step)] for [step <> 0]. *)
Definition range_length (start stop step : Z) : Z :=
  if 0 <? step then
    if start <? stop then (stop - start - 1) / step + 1 else 0
  else
    if stop <? start then (start - stop - 1) / (- step) + 1 else 0.

(** [range(start, stop, step)], materialised; a zero step raises. *)
Definition range (start stop step : Z) : result (list Z) :=
  if step =? 0 then Raise (ValueError "range() arg 3 must not be zero")
  else Ok (map (fun k => start + Z.of_nat k * step)
               (seq 0 (Z.to_nat (range_length start stop step)))).

(** Clamping of one slice bound against a sequence of length [n]. *)
Definition slice_bound (n i : Z) : Z :=
  if i <? 0 then Z.max (i + n) 0 else Z.min i n.

(** [l[lo:hi]] on a list. *)
Definition slice {A} (l : list A) (lo hi : Z) : list A :=
  let n := len l in
  let a := slice_bound n lo in
  let b := slice_bound n hi in
  firstn (Z.to_nat (b - a)) (skipn (Z.to_nat a) l).

(** [f"{n}"] for an integer. *)
Definition str_of_int (n : Z) : string :=
  NilZero.string_of_int (Z.to_int n).

(** [os.path.join(a, b)] with the POSIX separator. *)
Definition path_join (a b : string) : string :=
  (a ++ "/" ++ b)%string.

End Py.

Import Py.

Declare Scope py_scope.
Notation "x <- m ;; k" := (Py.bind m (fun x => k))
  (at level 61, m at next level, right associativity) : py_scope.
Open Scope py_scope.

(* ================================================================== *)
(** * Interfaces of the libraries the scripts call *)
(* ================================================================== *)

(** NumPy, as far as the scripts use it.  [F] is the type of the float
    scalars the analysis produces. *)
Class Numpy (F : Type) : Type := {
  (** [samples.astype(np.float32)], element by element *)
  astype_float32 : Z -> F;
  (** [samples**2], element by element *)
  np_square : F -> F;
  (** [np.mean(a)] *)
  np_mean : list F -> F;
  (** [np.sqrt(x)] *)
  np_sqrt : F -> F;
  (** [np.isnan(x)] *)
  np_isnan : F -> bool;
  (** [np.isinf(x)]; not called by the scripts, used to state finiteness *)
  np_isinf : F -> bool;
  (** [x < y] *)
  np_lt : F -> F -> bool;
  (** [x <= y] *)
  np_le : F -> F -> bool;
  (** [x > y] *)
  np_gt : F -> F -> bool
}.

(** The literal [0] of [mean_value < 0], as a float. *)
Definition np_zero {F} `{Numpy F} : F := astype_float32 0.

(** pydub's [AudioSegment], as far as the scripts use it. *)
Class Pydub (Sound : Type) : Type := {
  (** [len(sound)]: the duration in milliseconds *)
  sound_len : Sound -> nat;
  (** [sound[a:b]]: the part between two millisecond positions *)
  sound_slice : Sound -> Z -> Z -> Sound;
  (** [sound.get_array_of_samples()] *)
  get_array_of_samples : Sound -> list Z
}.

(** A call of [create_video_clip], the request handed to moviepy. *)
Record clip_request : Type := mk_clip {
  video_file : string;
  start_time : Z;
  duration : Z;
  output_filename : string
}.

(** The [(start_time, duration)] pair of a request. *)
Definition segment_of (c : clip_request) : Z * Z :=
  (start_time c, duration c).

(** Local variables of the selection loop. *)
Record loop_state : Type := mk_state {
  st_start_time : Z;
  st_clip_count : Z;
  st_clips : list clip_request
}.

(* ================================================================== *)
(** * videoClipper.py *)
(* ================================================================== *)

Module VideoClipper.
Section Program.
Context {F Sound : Type} {NP : Numpy F} {PD : Pydub Sound}.

Definition chunk_length_ms : Z := 100.
Definition output_dir : string := "output_clips".
Definition converted_video_file : string := "temp_converted_video.mp4".

(** Line 34: the list of 100 ms chunks. *)
Definition chunks_of (sound : Sound) : result (list Sound) :=
  idx <- Py.range 0 (Z.of_nat (sound_len sound)) chunk_length_ms ;;
  Ok (map (fun i => sound_slice sound i (i + chunk_length_ms)) idx).

(** Lines 50 and 57 for one chunk's samples. *)
Definition mean_square (samples : list Z) : F :=
  np_mean (map np_square (map astype_float32 samples)).

Definition rms_of (samples : list Z) : F :=
  np_sqrt (mean_square samples).

(** Lines 39-61: the body of [for chunk in chunks], as a transformer of
    the list [intensities]; [continue] leaves the list as it is. *)
Definition analyze_chunk (intensities : list F) (chunk : Sound) : list F :=
  let samples := get_array_of_samples chunk in
  if Py.len samples =? 0 then intensities
  else
    let mean_value := mean_square samples in
    if np_lt mean_value np_zero then intensities
    else
      let rms := np_sqrt mean_value in
      if negb (np_isnan rms) then intensities ++ [rms]
      else intensities.

(** Lines 26-63.  [sound] is the segment [AudioSegment.from_file]
    returned. *)
Definition get_audio_intensity (sound : Sound) : result (list F) :=
  chunks <- chunks_of sound ;;
  Ok (fold_left analyze_chunk chunks []).

(** Lines 65-72: the call is recorded, the encoding itself is moviepy's. *)
Definition create_video_clip (video : string) (start dur : Z)
    (out : string) : clip_request :=
  mk_clip video start dur out.

(** Lines 106-114: the body of the selection loop. *)
Definition select_step (video : string) (intensities : list F)
    (threshold : F) (clip_duration : Z) (st : loop_state) (i : Z)
    : loop_state :=
  let avg_intensity :=
    np_mean (Py.slice intensities i (i + clip_duration * 10)) in
  let st1 :=
    if np_gt avg_intensity threshold then
      let clip_count := st_clip_count st + 1 in
      let out :=
        Py.path_join output_dir
          ("clip_" ++ Py.str_of_int clip_count ++ ".mp4")%string in
      mk_state (st_start_time st) clip_count
        (st_clips st ++
           [create_video_clip video (st_start_time st) clip_duration out])
    else st in
  mk_state (st_start_time st1 + clip_duration) (st_clip_count st1)
    (st_clips st1).

(** Lines 101-114: the clips requested, in the order of the calls. *)
Definition select_clips (video : string) (intensities : list F)
    (threshold : F) (clip_duration : Z) : result (list clip_request) :=
  idx <- Py.range 0 (Py.len intensities) (clip_duration * 10) ;;
  Ok (st_clips
        (fold_left (select_step video intensities threshold clip_duration)
           idx (mk_state 0 0 []))).

(** Lines 74-114, from the decoded audio on: the clips are cut from
    the transcoded copy of the input. *)
Definition process_video (sound : Sound) (input_video_file : string)
    (threshold : F) (clip_duration : Z) : result (list clip_request) :=
  intensities <- get_audio_intensity sound ;;
  select_clips converted_video_file intensities threshold clip_duration.

End Program.
End VideoClipper.

(* ================================================================== *)
(** * videoClipperv1.py *)
(* ================================================================== *)

Module VideoClipperV1.
Section Program.
Context {F Sound : Type} {NP : Numpy F} {PD : Pydub Sound}.

Definition chunk_length_ms : Z := 100.
Definition output_dir : string := "output_clips".

(** Line 14. *)
Definition chunks_of (sound : Sound) : result (list Sound) :=
  idx <- Py.range 0 (Z.of_nat (sound_len sound)) chunk_length_ms ;;
  Ok (map (fun i => sound_slice sound i (i + chunk_length_ms)) idx).

(** Lines 19-41. *)
Definition analyze_chunk (intensities : list F) (chunk : Sound) : list F :=
  let samples := get_array_of_samples chunk in
  if Py.len samples =? 0 then intensities
  else
    let mean_value :=
      np_mean (map np_square (map astype_float32 samples)) in
    if np_lt mean_value np_zero then intensities
    else
      let rms := np_sqrt mean_value in
      if negb (np_isnan rms) then intensities ++ [rms]
      else intensities.

(** Lines 6-43. *)
Definition get_audio_intensity (sound : Sound) : result (list F) :=
  chunks <- chunks_of sound ;;
  Ok (fold_left analyze_chunk chunks []).

(** Lines 45-52. *)
Definition create_video_clip (video : string) (start dur : Z)
    (out : string) : clip_request :=
  mk_clip video start dur out.

(** Lines 77-85. *)
Definition select_step (video : string) (intensities : list F)
    (threshold : F) (clip_duration : Z) (st : loop_state) (i : Z)
    : loop_state :=
  let avg_intensity :=
    np_mean (Py.slice intensities i (i + clip_duration * 10)) in
  let st1 :=
    if np_gt avg_intensity threshold then
      let clip_count := st_clip_count st + 1 in
      let out :=
        Py.path_join output_dir
          ("clip_" ++ Py.str_of_int clip_count ++ ".mp4")%string in
      mk_state (st_start_time st) clip_count
        (st_clips st ++
           [create_video_clip video (st_start_time st) clip_duration out])
    else st in
  mk_state (st_start_time st1 + clip_duration) (st_clip_count st1)
    (st_clips st1).

(** Lines 72-85. *)
Definition select_clips (video : string) (intensities : list F)
    (threshold : F) (clip_duration : Z) : result (list clip_request) :=
  idx <- Py.range 0 (Py.len intensities) (clip_duration * 10) ;;
  Ok (st_clips
        (fold_left (select_step video intensities threshold clip_duration)
           idx (mk_state 0 0 []))).

(** Lines 54-85, from the decoded audio on: the clips are cut from the
    input file itself. *)
Definition process_video (sound : Sound) (input_video_file : string)
    (threshold : F) (clip_duration : Z) : result (list clip_request) :=
  intensities <- get_audio_intensity sound ;;
  select_clips input_video_file intensities threshold clip_duration.

End Program.
End VideoClipperV1.

(* ================================================================== *)
(** * The scripts with their effects *)
(* ================================================================== *)

(** What the scripts do to the machine they run on (files, processes,
    the console) is threaded through a state of type [W].  A step takes
    the state and returns the new state with a value or an exception;
    the state an exception leaves behind stays. *)
Module Host.

(** Exceptions: those of the modelled Python fragment, the one the
    scripts catch, and any other one a library raises. *)
Inductive raised : Type :=
| PyExn (e : Py.exn)
| PermissionError
| OtherError (name : string).

Inductive outcome (A : Type) : Type :=
| Done (a : A)
| Fail (e : raised).
Arguments Done {A} a.
Arguments Fail {A} e.

Definition io (W A : Type) : Type := W -> W * outcome A.

Definition ret {W A} (a : A) : io W A := fun w => (w, Done a).

Definition raise {W A} (e : raised) : io W A := fun w => (w, Fail e).

Definition bind {W A B} (m : io W A) (k : A -> io W B) : io W B :=
  fun w =>
    match m w with
    | (w1, Done a) => k a w1
    | (w1, Fail e) => (w1, Fail e)
    end.

(** A pure piece of Python inside an effectful one. *)
Definition lift {W A} (r : Py.result A) : io W A :=
  match r with
  | Py.Ok a => ret a
  | Py.Raise e => raise (PyExn e)
  end.

(** [try: m  except PermissionError: h]. *)
Definition except_permission {W A} (m : io W A) (h : io W A) : io W A :=
  fun w =>
    match m w with
    | (w1, Fail PermissionError) => h w1
    | r => r
    end.

(** A [for] loop whose body updates the loop variables [s]. *)
Fixpoint for_each {W A S} (body : S -> A -> io W S) (xs : list A) (s : S)
    : io W S :=
  match xs with
  | [] => ret s
  | x :: r => bind (body s x) (for_each body r)
  end.

End Host.

Import Host.

Declare Scope io_scope.
Delimit Scope io_scope with io.
Notation "x <- m ;; k" := (Host.bind m (fun x => k))
  (at level 61, m at next level, right associativity) : io_scope.
Notation "m ;; k" := (Host.bind m (fun _ => k))
  (at level 61, right associativity) : io_scope.

(** The operating system, ffmpeg, moviepy and pydub as the scripts call
    them.  [Video] is the type of moviepy's clip objects. *)
Class HostOps (W Sound Video : Type) : Type := {
  (** [os.path.exists(p)] *)
  os_path_exists : string -> W -> bool;
  (** [os.remove(p)] *)
  os_remove : string -> io W unit;
  (** [os.makedirs(p)] *)
  os_makedirs : string -> io W unit;
  (** [subprocess.run(command, check=True)] *)
  subprocess_run : list string -> io W unit;
  (** [print(s)] *)
  print : string -> W -> W;
  (** [AudioSegment.from_file(p)] *)
  audio_from_file : string -> io W Sound;
  (** [VideoFileClip(p)] *)
  video_file_clip : string -> io W Video;
  (** [video.audio.write_audiofile(p)] *)
  write_audiofile : Video -> string -> io W unit;
  (** [video.subclip(a, b)] *)
  subclip : Video -> Z -> Z -> io W Video;
  (** [clip.write_videofile(p, codec=c, audio_codec=a)] *)
  write_videofile : Video -> string -> string -> string -> io W unit
}.

(** [f"{x}"] for a NumPy float. *)
Class NumpyFormat (F : Type) : Type := {
  np_str : F -> string
}.

(** videoClipper.py, every function with its effects. *)
Module VideoClipperIO.
Section Program.
Context {F Sound Video W : Type}.
Context {NP : Numpy F} {NF : NumpyFormat F} {PD : Pydub Sound}.
Context {HO : HostOps W Sound Video}.
Local Open Scope io_scope.

Definition print_io (s : string) : io W unit := fun w => (print s w, Done tt).

(** Lines 15-21. *)
Definition ffmpeg_command (input_video_file output_video_file : string)
    : list string :=
  ["ffmpeg"; "-i"; input_video_file; "-c:v"; "copy"; "-c:a"; "mp3";
   output_video_file]%string.

(** Lines 7-24. *)
Definition convert_audio_codec (input_video_file output_video_file : string)
    : io W unit :=
  (fun w =>
     if os_path_exists output_video_file w
     then os_remove output_video_file w
     else Host.ret tt w) ;;
  subprocess_run (ffmpeg_command input_video_file output_video_file).

(** Lines 39-61. *)
Definition analyze_chunk (intensities : list F) (chunk : Sound)
    : io W (list F) :=
  let samples := get_array_of_samples chunk in
  if Py.len samples =? 0 then Host.ret intensities
  else
    let mean_value := VideoClipper.mean_square samples in
    if np_lt mean_value np_zero then
      print_io ("Invalid mean value encountered: " ++ np_str mean_value) ;;
      Host.ret intensities
    else
      let rms := np_sqrt mean_value in
      if negb (np_isnan rms) then Host.ret (intensities ++ [rms])
      else Host.ret intensities.

(** Lines 26-63. *)
Definition get_audio_intensity (audio_file : string) : io W (list F) :=
  sound <- audio_from_file audio_file ;;
  chunks <- Host.lift (VideoClipper.chunks_of sound) ;;
  Host.for_each analyze_chunk chunks [].

(** Lines 65-72. *)
Definition create_video_clip (video_file : string) (start_time duration : Z)
    (output_filename : string) : io W unit :=
  video <- video_file_clip video_file ;;
  clip <- subclip video start_time (start_time + duration) ;;
  write_videofile clip output_filename "libx264" "aac".

(** Lines 106-114; the loop variables are [start_time] and [clip_count]. *)
Definition select_step (video : string) (intensities : list F)
    (threshold : F) (clip_duration : Z) (st : Z * Z) (i : Z) : io W (Z * Z) :=
  let avg_intensity :=
    np_mean (Py.slice intensities i (i + clip_duration * 10)) in
  clip_count <-
    (if np_gt avg_intensity threshold then
       let clip_count := snd st + 1 in
       let out :=
         Py.path_join VideoClipper.output_dir
           ("clip_" ++ Py.str_of_int clip_count ++ ".mp4")%string in
       create_video_clip video (fst st) clip_duration out ;;
       Host.ret clip_count
     else Host.ret (snd st)) ;;
  Host.ret (fst st + clip_duration, clip_count).

(** Lines 101-114. *)
Definition select_clips (video : string) (intensities : list F)
    (threshold : F) (clip_duration : Z) : io W unit :=
  idx <- Host.lift (Py.range 0 (Py.len intensities) (clip_duration * 10)) ;;
  Host.for_each (select_step video intensities threshold clip_duration)
    idx (0, 0) ;;
  Host.ret tt.

Definition audio_file : string := "temp_audio.wav".

(** Lines 79-99: everything up to the intensities. *)
Definition prepare (input_video_file : string) : io W (list F) :=
  (fun w =>
     if negb (os_path_exists VideoClipper.output_dir w)
     then os_makedirs VideoClipper.output_dir w
     else Host.ret tt w) ;;
  convert_audio_codec input_video_file VideoClipper.converted_video_file ;;
  video <- video_file_clip VideoClipper.converted_video_file ;;
  write_audiofile video audio_file ;;
  get_audio_intensity audio_file.

(** Lines 116-122. *)
Definition cleanup : io W unit :=
  os_remove audio_file ;;
  Host.except_permission
    (os_remove VideoClipper.converted_video_file)
    (print_io ("Could not delete " ++ VideoClipper.converted_video_file ++
               ". It may still be in use.")).

(** Lines 74-122. *)
Definition process_video (input_video_file : string) (threshold : F)
    (clip_duration : Z) : io W unit :=
  intensities <- prepare input_video_file ;;
  select_clips VideoClipper.converted_video_file intensities threshold
    clip_duration ;;
  cleanup.

End Program.
End VideoClipperIO.

(* ================================================================== *)
(** * Instances of the interfaces *)
(* ================================================================== *)

(** IEEE 754 binary32 scalars, on the Standard Library's executable
    specification of floating-point arithmetic.  [np.mean] accumulates
    from left to right in binary32 and divides by the count; the order
    in which NumPy's reduction adds the terms is not modelled. *)
Module Binary32.

Definition prec : Z := 24.
Definition emax : Z := 128.

Definition of_Z (z : Z) : spec_float := binary_normalize prec emax z 0 false.

Definition sum (l : list spec_float) : spec_float :=
  fold_left (SFadd prec emax) l (S754_zero false).

Definition mean (l : list spec_float) : spec_float :=
  SFdiv prec emax (sum l) (of_Z (Py.len l)).

Definition isnan (x : spec_float) : bool :=
  match x with S754_nan => true | _ => false end.

Definition isinf (x : spec_float) : bool :=
  match x with S754_infinity _ => true | _ => false end.

#[export] Instance numpy_binary32 : Numpy spec_float := {
  astype_float32 := of_Z;
  np_square := fun x => SFmul prec emax x x;
  np_mean := mean;
  np_sqrt := SFsqrt prec emax;
  np_isnan := isnan;
  np_isinf := isinf;
  np_lt := SFltb;
  np_le := SFleb;
  np_gt := fun x y => SFltb y x
}.

End Binary32.

(** Integer-valued scalars with a NaN: exact squares, floor mean, floor
    square root, no infinities.  A small model of the interface in which
    every law used below can be checked by computation. *)
Module IntScalar.

Definition t : Type := option Z.

Definition square (x : t) : t :=
  match x with Some a => Some (a * a) | None => None end.

Fixpoint total (l : list t) : t :=
  match l with
  | [] => Some 0
  | x :: r =>
      match x, total r with
      | Some a, Some b => Some (a + b)
      | _, _ => None
      end
  end.

Definition mean (l : list t) : t :=
  match l, total l with
  | _ :: _, Some s => Some (s / Py.len l)
  | _, _ => None
  end.

Definition sqrt (x : t) : t :=
  match x with
  | Some a => if a <? 0 then None else Some (Z.sqrt a)
  | None => None
  end.

Definition isnan (x : t) : bool :=
  match x with None => true | Some _ => false end.

Definition ltb (x y : t) : bool :=
  match x, y with Some a, Some b => a <? b | _, _ => false end.

Definition leb (x y : t) : bool :=
  match x, y with Some a, Some b => a <=? b | _, _ => false end.

#[export] Instance numpy_int : Numpy t := {
  astype_float32 := fun z => Some z;
  np_square := square;
  np_mean := mean;
  np_sqrt := sqrt;
  np_isnan := isnan;
  np_isinf := fun _ => false;
  np_lt := ltb;
  np_le := leb;
  np_gt := fun x y => ltb y x
}.

End IntScalar.

(** A sound given by the samples that fall into each millisecond of its
    timeline.  Slicing by milliseconds is list slicing, and a stretch of
    the timeline may hold no sample at all. *)
Module Timeline.

Definition t : Type := list (list Z).

#[export] Instance pydub_timeline : Pydub t := {
  sound_len := fun s => length s;
  sound_slice := fun s a b => Py.slice s a b;
  get_array_of_samples := fun s => concat s
}.

(** [n] milliseconds that hold no sample. *)
Definition gap (n : nat) : t := repeat [] n.

(** One sample per millisecond. *)
Definition dense (samples : list Z) : t := map (fun x => [x]) samples.

End Timeline.

Import Binary32 IntScalar Timeline.

(** A simulated machine: the files that exist, the files that cannot be
    deleted, the console, and the audio track every media file holds.
    The tools succeed whenever their input file exists. *)
Module Sim.

Record machine : Type := mk_machine {
  files : list string;
  locked : list string;
  stdout : list string;
  track : Timeline.t
}.

Definition has (p : string) (ps : list string) : bool :=
  existsb (String.eqb p) ps.

Definition with_files (w : machine) (fs : list string) : machine :=
  mk_machine fs (locked w) (stdout w) (track w).

Definition add_file (p : string) (w : machine) : machine :=
  if has p (files w) then w else with_files w (files w ++ [p]).

Definition remove (p : string) : io machine unit :=
  fun w =>
    if has p (locked w) then (w, Fail PermissionError)
    else if has p (files w)
    then (with_files w (filter (fun q => negb (String.eqb p q)) (files w)),
          Done tt)
    else (w, Fail (OtherError "FileNotFoundError")).

Definition makedirs (p : string) : io machine unit :=
  fun w =>
    if has p (files w) then (w, Fail (OtherError "FileExistsError"))
    else (add_file p w, Done tt).

Definition run (command : list string) : io machine unit :=
  fun w =>
    match command with
    | [_; _; input; _; _; _; _; output] =>
        if has input (files w) then (add_file output w, Done tt)
        else (w, Fail (OtherError "CalledProcessError"))
    | _ => (w, Fail (OtherError "CalledProcessError"))
    end.

Definition write_line (s : string) (w : machine) : machine :=
  mk_machine (files w) (locked w) (stdout w ++ [s]) (track w).

Definition open_file {A} (p : string) (a : machine -> A) : io machine A :=
  fun w =>
    if has p (files w) then (w, Done (a w))
    else (w, Fail (OtherError "FileNotFoundError")).

End Sim.

#[global] Instance host_sim : HostOps Sim.machine Timeline.t string := {
  os_path_exists := fun p w => Sim.has p (Sim.files w);
  os_remove := Sim.remove;
  os_makedirs := Sim.makedirs;
  subprocess_run := Sim.run;
  print := Sim.write_line;
  audio_from_file := fun p => Sim.open_file p Sim.track;
  video_file_clip := fun p => Sim.open_file p (fun _ => p);
  write_audiofile := fun _ p w => (Sim.add_file p w, Done tt);
  subclip := fun v _ _ w => (w, Done v);
  write_videofile := fun _ p _ _ w => (Sim.add_file p w, Done tt)
}.

(** Floats are printed by a fixed placeholder. *)
#[global] Instance format_binary32 : NumpyFormat spec_float := {
  np_str := fun _ => "<float32>"%string
}.

(** Machines used in the examples below: one video and a track of two
    samples, with nothing locked, with the transcoded copy locked, and
    with the input under the name of the transcoded copy. *)
Module SimSamples.

Definition plain : Sim.machine :=
  Sim.mk_machine ["pubg.mp4"]%string [] [] (dense [3; 4]).

Definition copy_locked : Sim.machine :=
  Sim.mk_machine ["pubg.mp4"]%string ["temp_converted_video.mp4"]%string []
    (dense [3; 4]).

Definition same_name : Sim.machine :=
  Sim.mk_machine ["temp_converted_video.mp4"]%string [] [] (dense [3; 4]).

End SimSamples.

(** Inputs used in the examples below. *)
Module Samples.

(** A 600 ms track with one frame every 200 ms (a 5 Hz sample rate), so
    that every other 100 ms chunk holds no sample. *)
Definition low_rate : Timeline.t :=
  gap 100 ++ [[3]] ++ gap 199 ++ [[4]] ++ gap 199 ++ [[5]] ++ gap 99.

(** 250 ms at one sample per millisecond: two full chunks, the first
    one of zero samples only, and a partial one. *)
Definition short_track : Timeline.t :=
  dense (repeat 0 100 ++ repeat 3 100 ++ repeat 4 50).

(** Constant intensity sequences in binary32. *)
Definition level (x : Z) (n : nat) : list spec_float :=
  repeat (Binary32.of_Z x) n.

(** 2.5 seconds of intensity 10. *)
Definition loud_25 : list spec_float := level 10 25.

(** A loud minute followed by a quiet one (scenario C of the
    specification). *)
Definition loud_then_quiet : list spec_float := level 10 600 ++ level 1 600.

End Samples.

Import Samples.

(* ================================================================== *)
(** * Vocabulary of the specification *)
(* ================================================================== *)

(** The clips a run requested before it ended.  The only exception of
    the loop comes from [range], before the first iteration. *)
Definition requested (r : result (list clip_request)) : list clip_request :=
  match r with
  | Ok l => l
  | Raise _ => []
  end.

(** The selected segments of a run, in emission order. *)
Definition segments (r : result (list clip_request)) : list (Z * Z) :=
  map segment_of (requested r).

(** The entries of [l] whose index, counted from [i], lies in [[lo, hi)]. *)
Fixpoint entries_between {A} (lo hi i : Z) (l : list A) : list A :=
  match l with
  | [] => []
  | x :: r =>
      if (lo <=? i) && (i <? hi)
      then x :: entries_between lo hi (i + 1) r
      else entries_between lo hi (i + 1) r
  end.

(** Group [k] of the specification: the entries at the indices
    [[k * d * 10, (k + 1) * d * 10)]. *)
Definition group_entries {A} (l : list A) (k : nat) (d : Z) : list A :=
  entries_between (Z.of_nat k * d * 10) ((Z.of_nat k + 1) * d * 10) 0 l.

(** The decision rule of the specification, as a property of the list
    of emitted segments: group [k] is emitted exactly when its mean
    exceeds [t], a mean equal to [t] does not select, and nothing else
    is emitted. *)
Definition decision_rule {F} `{Numpy F} (segs : list (Z * Z)) (l : list F)
    (t : F) (d : Z) : Prop :=
  (forall k : nat,
      In (Z.of_nat k * d, d) segs <->
      np_gt (np_mean (group_entries l k d)) t = true) /\
  (forall k : nat,
      np_mean (group_entries l k d) = t -> ~ In (Z.of_nat k * d, d) segs) /\
  (forall seg,
      In seg segs ->
      exists k : nat,
        seg = (Z.of_nat k * d, d) /\
        np_gt (np_mean (group_entries l k d)) t = true).

(** Upward-rounded quotient. *)
Definition ceil_div (a b : Z) : Z := (a + b - 1) / b.

(** The windows of a list of segments follow one another: each starts
    strictly after the start of every earlier one and not before its end. *)
Definition window_before (a b : Z * Z) : Prop :=
  fst a < fst b /\ fst a + snd a <= fst b.

Definition windows_ordered (l : list (Z * Z)) : Prop :=
  StronglySorted window_before l.

(** Number of groups the selection loop visits. *)
Definition group_count {A} (l : list A) (d : Z) : nat :=
  Z.to_nat (Py.range_length 0 (Py.len l) (d * 10)).

(** The slice the loop averages in its iteration number [k]. *)
Definition group_slice {A} (l : list A) (d : Z) (k : nat) : list A :=
  Py.slice l (Z.of_nat k * (d * 10)) (Z.of_nat k * (d * 10) + d * 10).

(** The test of line 109 in iteration number [k]. *)
Definition group_selected {F} `{Numpy F} (l : list F) (t : F) (d : Z)
    (k : nat) : bool :=
  np_gt (np_mean (group_slice l d k)) t.

Section AnalyzerVocabulary.
Context {F Sound : Type} {NP : Numpy F} {PD : Pydub Sound}.

(** The chunk that starts [i * 100] ms into the sound. *)
Definition chunk_at (s : Sound) (i : nat) : Sound :=
  sound_slice s (Z.of_nat i * 100) (Z.of_nat i * 100 + 100).

(** Number of chunks of a sound: its length over 100 ms, rounded up. *)
Definition chunk_count (s : Sound) : nat :=
  Z.to_nat (ceil_div (Z.of_nat (sound_len s)) 100).

(** The three ways a chunk is left out (lines 43, 53 and 60). *)
Definition chunk_empty (c : Sound) : bool :=
  Py.len (get_array_of_samples c) =? 0.

Definition chunk_negative (c : Sound) : bool :=
  np_lt (VideoClipper.mean_square (get_array_of_samples c)) np_zero.

Definition chunk_nan (c : Sound) : bool :=
  np_isnan (VideoClipper.rms_of (get_array_of_samples c)).

Definition chunk_kept (c : Sound) : bool :=
  negb (chunk_empty c) && negb (chunk_negative c) && negb (chunk_nan c).

(** The RMS of a chunk's samples. *)
Definition chunk_rms (c : Sound) : F :=
  VideoClipper.rms_of (get_array_of_samples c).

(** The output read positionally: entry [i] is the value of the chunk
    that starts at [i * 100] ms, and there is one entry per non-empty
    chunk. *)
Definition output_positional (s : Sound) : Prop :=
  exists out : list F,
    VideoClipper.get_audio_intensity s = Ok out /\
    (forall (i : nat) (x : F),
        nth_error out i = Some x ->
        chunk_kept (chunk_at s i) = true /\ x = chunk_rms (chunk_at s i)) /\
    length out =
    length (filter (fun i => negb (chunk_empty (chunk_at s i)))
              (seq 0 (chunk_count s))).

(** Every chunk of the sound holds PCM samples of at most 32 bits. *)
Definition pcm_sample (x : Z) : Prop := - 2 ^ 31 <= x < 2 ^ 31.

Definition pcm_sound (s : Sound) : Prop :=
  forall i : nat, Forall pcm_sample (get_array_of_samples (chunk_at s i)).

End AnalyzerVocabulary.

(** The same request, cut from another source file. *)
Definition retarget (video : string) (c : clip_request) : clip_request :=
  mk_clip video (start_time c) (duration c) (output_filename c).

(** A loop state whose requests are retargeted. *)
Definition restate (video : string) (st : loop_state) : loop_state :=
  mk_state (st_start_time st) (st_clip_count st)
    (map (retarget video) (st_clips st)).

Definition result_map {A B} (f : A -> B) (r : result A) : result B :=
  match r with
  | Ok a => Ok (f a)
  | Raise e => Raise e
  end.

(** The file the [n]-th clip of a run is written to. *)
Definition clip_name (n : Z) : string :=
  Py.path_join VideoClipper.output_dir
    ("clip_" ++ Py.str_of_int n ++ ".mp4")%string.

(** A segment moved [off] seconds later. *)
Definition shift_segment (off : Z) (seg : Z * Z) : Z * Z :=
  (fst seg + off, snd seg).

(** The requests of a state are numbered from 1 in the order of their
    emission, cut from [video] and [d] seconds long. *)
Definition well_numbered (video : string) (d : Z) (st : loop_state) : Prop :=
  st_clip_count st = Py.len (st_clips st) /\
  forall (i : nat) (req : clip_request),
    nth_error (st_clips st) i = Some req ->
    output_filename req = clip_name (Z.of_nat i + 1) /\
    video_file req = video /\ duration req = d.

Section EffectVocabulary.
Context {F Sound Video W : Type}.
Context {NP : Numpy F} {NF : NumpyFormat F} {PD : Pydub Sound}.
Context {HO : HostOps W Sound Video}.

(** Carrying out a list of clip requests, one call of
    [create_video_clip] each, up to the first one that fails. *)
Fixpoint perform (reqs : list clip_request) : io W unit :=
  match reqs with
  | [] => Host.ret tt
  | r :: rest =>
      Host.bind
        (VideoClipperIO.create_video_clip (video_file r) (start_time r)
           (duration r) (output_filename r))
        (fun _ => perform rest)
  end.

(** Printing a list of lines. *)
Definition print_all (lines : list string) (w : W) : W :=
  fold_left (fun w s => print s w) lines w.

(** The chunks the Analyzer reports: those with samples and a negative
    mean square. *)
Definition chunk_reported (c : Sound) : bool :=
  negb (chunk_empty c) && chunk_negative c.

Definition invalid_mean_message (c : Sound) : string :=
  ("Invalid mean value encountered: " ++
   np_str (VideoClipper.mean_square (F := F) (get_array_of_samples c)))%string.

End EffectVocabulary.

(* ================================================================== *)
(** * Facts about [range] and slices *)
(* ================================================================== *)

Lemma range_zero_step (a b : Z) :
  Py.range a b 0 = Raise (ValueError "range() arg 3 must not be zero").
Proof. reflexivity. Qed.

Lemma range_nonzero (a b step : Z) :
  step <> 0 ->
  Py.range a b step =
  Ok (map (fun k => a + Z.of_nat k * step)
        (seq 0 (Z.to_nat (Py.range_length a b step)))).
Proof.
  intros Hs. unfold Py.range.
  destruct (Z.eqb_spec step 0); [contradiction | reflexivity].
Qed.

Lemma range_length_up (n step : Z) :
  0 <= n -> 0 < step -> Py.range_length 0 n step = ceil_div n step.
Proof.
  intros Hn Hs. unfold Py.range_length, ceil_div.
  destruct (Z.ltb_spec 0 step); [| lia].
  destruct (Z.ltb_spec 0 n).
  - replace (n + step - 1) with (n - 0 - 1 + 1 * step) by lia.
    rewrite Z.div_add by lia. reflexivity.
  - assert (n = 0) by lia. subst n.
    symmetry. apply Z.div_small. lia.
Qed.

Lemma range_length_down (n step : Z) :
  0 <= n -> step <= 0 -> Py.range_length 0 n step = 0.
Proof.
  intros Hn Hs. unfold Py.range_length.
  destruct (Z.ltb_spec 0 step); [lia |].
  destruct (Z.ltb_spec n 0); [lia | reflexivity].
Qed.

Lemma ceil_div_bounds (n step : Z) :
  0 <= n -> 0 < step ->
  0 <= ceil_div n step /\
  (ceil_div n step - 1) * step < n + (if n =? 0 then 1 else 0) /\
  n <= ceil_div n step * step.
Proof.
  intros Hn Hs. unfold ceil_div.
  pose proof (Z.div_mod (n + step - 1) step ltac:(lia)) as E.
  pose proof (Z.mod_pos_bound (n + step - 1) step Hs) as B.
  set (q := (n + step - 1) / step) in *.
  set (r := (n + step - 1) mod step) in *.
  assert (Hq : 0 <= q) by (apply Z.div_pos; lia).
  repeat split; [lia | | nia].
  destruct (Z.eqb_spec n 0); nia.
Qed.

Lemma entries_between_firstn_skipn {A} (lo hi : Z) (l : list A) :
  forall i,
    entries_between lo hi i l =
    firstn (Z.to_nat (hi - Z.max lo i)) (skipn (Z.to_nat (lo - i)) l).
Proof.
  induction l as [| x r IH]; intros i; simpl.
  - now rewrite skipn_nil, firstn_nil.
  - rewrite IH.
    destruct (Z.leb_spec lo i) as [Hlo | Hlo]; simpl.
    + replace (Z.to_nat (lo - i)) with 0%nat by lia.
      replace (Z.to_nat (lo - (i + 1))) with 0%nat by lia. simpl.
      destruct (Z.ltb_spec i hi) as [Hhi | Hhi].
      * replace (Z.to_nat (hi - Z.max lo i))
          with (S (Z.to_nat (hi - Z.max lo (i + 1)))) by lia.
        reflexivity.
      * replace (Z.to_nat (hi - Z.max lo i)) with 0%nat by lia.
        replace (Z.to_nat (hi - Z.max lo (i + 1))) with 0%nat by lia.
        reflexivity.
    + replace (Z.to_nat (lo - i)) with (S (Z.to_nat (lo - (i + 1)))) by lia.
      replace (Z.max lo (i + 1)) with (Z.max lo i) by lia.
      reflexivity.
Qed.

Lemma slice_firstn_skipn {A} (l : list A) (lo hi : Z) :
  0 <= lo -> lo <= hi ->
  Py.slice l lo hi = firstn (Z.to_nat (hi - lo)) (skipn (Z.to_nat lo) l).
Proof.
  intros Hlo Hhi. unfold Py.slice, Py.slice_bound, Py.len.
  destruct (Z.ltb_spec lo 0); [lia |].
  destruct (Z.ltb_spec hi 0); [lia |].
  destruct (Z.le_gt_cases (Z.of_nat (length l)) lo) as [Hbig | Hsmall].
  - rewrite (skipn_all2 l) by lia.
    rewrite (skipn_all2 l) by lia.
    now rewrite !firstn_nil.
  - replace (Z.min lo (Z.of_nat (length l))) with lo by lia.
    destruct (Z.le_gt_cases hi (Z.of_nat (length l))).
    + replace (Z.min hi (Z.of_nat (length l))) with hi by lia. reflexivity.
    + replace (Z.min hi (Z.of_nat (length l)))
        with (Z.of_nat (length l)) by lia.
      rewrite !firstn_all2; try reflexivity; rewrite length_skipn; lia.
Qed.

Lemma slice_entries_between {A} (l : list A) (lo hi : Z) :
  0 <= lo -> lo <= hi ->
  Py.slice l lo hi = entries_between lo hi 0 l.
Proof.
  intros Hlo Hhi.
  rewrite slice_firstn_skipn, entries_between_firstn_skipn by assumption.
  replace (Z.max lo 0) with lo by lia.
  now replace (lo - 0) with lo by lia.
Qed.

Lemma entries_between_empty_range {A} (lo hi : Z) (l : list A) :
  hi <= lo -> forall i, entries_between lo hi i l = [].
Proof.
  intros H i. rewrite entries_between_firstn_skipn.
  replace (Z.to_nat (hi - Z.max lo i)) with 0%nat by lia. reflexivity.
Qed.

Lemma entries_between_past_end {A} (lo hi : Z) (l : list A) :
  Z.of_nat (length l) <= lo -> entries_between lo hi 0 l = [].
Proof.
  intros H. rewrite entries_between_firstn_skipn.
  rewrite skipn_all2 by lia. apply firstn_nil.
Qed.

(* ================================================================== *)
(** * The selection loop *)
(* ================================================================== *)

Section SelectorFacts.
Context {F : Type} {NP : Numpy F}.
Variables (video : string) (l : list F) (t : F) (d : Z).

Let step := VideoClipper.select_step video l t d.

Lemma select_step_start (st : loop_state) (i : Z) :
  st_start_time (step st i) = st_start_time st + d.
Proof.
  unfold step, VideoClipper.select_step.
  destruct (np_gt _ _); reflexivity.
Qed.

Lemma select_step_segments (st : loop_state) (k : nat) :
  st_start_time st = Z.of_nat k * d ->
  map segment_of (st_clips (step st (0 + Z.of_nat k * (d * 10)))) =
  map segment_of (st_clips st) ++
    (if group_selected l t d k then [(Z.of_nat k * d, d)] else []).
Proof.
  intros Hst. unfold step, VideoClipper.select_step, group_selected,
    group_slice.
  rewrite Z.add_0_l.
  destruct (np_gt _ _); simpl.
  - rewrite map_app. simpl. unfold segment_of at 2. simpl.
    now rewrite Hst.
  - now rewrite app_nil_r.
Qed.

(** The loop, started in the iteration number [a] with the start time
    the earlier iterations left, adds one segment per selected group. *)
Lemma select_fold_segments (n : nat) :
  forall (a : nat) (st : loop_state),
    st_start_time st = Z.of_nat a * d ->
    map segment_of
      (st_clips
         (fold_left step
            (map (fun k => 0 + Z.of_nat k * (d * 10)) (seq a n)) st)) =
    map segment_of (st_clips st) ++
      map (fun k => (Z.of_nat k * d, d))
        (filter (group_selected l t d) (seq a n)).
Proof.
  induction n as [| n IH]; intros a st Hst; cbn [seq map fold_left filter].
  - now rewrite app_nil_r.
  - rewrite IH.
    + rewrite select_step_segments by assumption.
      rewrite <- app_assoc. f_equal.
      destruct (group_selected l t d a); reflexivity.
    + rewrite select_step_start, Hst. lia.
Qed.

Lemma segments_select_clips :
  d <> 0 ->
  segments (VideoClipper.select_clips video l t d) =
  map (fun k => (Z.of_nat k * d, d))
    (filter (group_selected l t d) (seq 0 (group_count l d))).
Proof.
  intros Hd. unfold segments, VideoClipper.select_clips.
  rewrite range_nonzero by lia. cbn [Py.bind requested].
  now rewrite (select_fold_segments _ 0%nat).
Qed.

Lemma select_clips_zero_duration :
  d = 0 ->
  VideoClipper.select_clips video l t d =
  Raise (ValueError "range() arg 3 must not be zero").
Proof. intros ->. reflexivity. Qed.

Lemma group_count_nonpos : d <= 0 -> group_count l d = 0%nat.
Proof.
  intros Hd. unfold group_count.
  rewrite range_length_down; unfold Py.len; lia.
Qed.

Lemma group_count_pos :
  0 < d -> Z.of_nat (group_count l d) = ceil_div (Py.len l) (d * 10).
Proof.
  intros Hd. unfold group_count.
  rewrite range_length_up by (unfold Py.len; lia).
  pose proof (ceil_div_bounds (Py.len l) (d * 10)
                ltac:(unfold Py.len; lia) ltac:(lia)).
  lia.
Qed.

(** Every group the loop visits starts inside the sequence. *)
Lemma group_start_in_range (k : nat) :
  0 < d -> (k < group_count l d)%nat ->
  0 <= Z.of_nat k * (d * 10) < Py.len l.
Proof.
  intros Hd Hk.
  pose proof (group_count_pos Hd) as E.
  pose proof (ceil_div_bounds (Py.len l) (d * 10)
                ltac:(unfold Py.len; lia) ltac:(lia)) as (B0 & B1 & B2).
  assert (Hlen : 0 <= Py.len l) by (unfold Py.len; lia).
  split; [nia |].
  destruct (Z.eqb_spec (Py.len l) 0) as [E0 | E0].
  - rewrite E0 in *. unfold ceil_div in E.
    rewrite Z.div_small in E by lia. lia.
  - nia.
Qed.

(** Past the last visited group nothing is left. *)
Lemma group_start_past_end (k : nat) :
  0 < d -> (group_count l d <= k)%nat ->
  Py.len l <= Z.of_nat k * (d * 10).
Proof.
  intros Hd Hk.
  pose proof (group_count_pos Hd) as E.
  pose proof (ceil_div_bounds (Py.len l) (d * 10)
                ltac:(unfold Py.len; lia) ltac:(lia)) as (B0 & B1 & B2).
  nia.
Qed.

Lemma group_slice_entries (k : nat) :
  0 < d -> group_slice l d k = group_entries l k d.
Proof.
  intros Hd. unfold group_slice, group_entries.
  rewrite slice_entries_between by nia.
  f_equal; lia.
Qed.

End SelectorFacts.

(* ================================================================== *)
(** * Laws of binary32 arithmetic *)
(* ================================================================== *)

Module Binary32Laws.

(** ** Comparison *)

Ltac order_cases :=
  repeat match goal with
    | H : context [Z.compare ?a ?b] |- _ => destruct (Z.compare_spec a b)
    | |- context [Z.compare ?a ?b] => destruct (Z.compare_spec a b)
    | H : context [Pos.compare_cont Eq ?a ?b] |- _ =>
        change (Pos.compare_cont Eq a b) with (Pos.compare a b) in H;
        destruct (Pos.compare_spec a b)
    | |- context [Pos.compare_cont Eq ?a ?b] =>
        change (Pos.compare_cont Eq a b) with (Pos.compare a b);
        destruct (Pos.compare_spec a b)
    end;
  simpl in *; try discriminate; try reflexivity; try lia.

(** The mean of no value at all is NaN, which is above nothing. *)
Lemma binary32_mean_nil_not_gt (t : spec_float) : np_gt (np_mean []) t = false.
Proof. destruct t as [[] | [] | | [] m e]; reflexivity. Qed.

Lemma binary32_gt_irrefl (x : spec_float) : np_gt x x = false.
Proof.
  destruct x as [[] | [] | | [] m e]; try reflexivity;
    simpl; unfold SFltb, SFcompare; order_cases.
Qed.

(** [t1 <= t2 < a] gives [t1 < a]. *)
Lemma binary32_gt_antitone (a t1 t2 : spec_float) :
  np_le t1 t2 = true -> np_gt a t2 = true -> np_gt a t1 = true.
Proof.
  simpl. unfold SFleb, SFltb, SFcompare.
  destruct t1 as [[] | [] | | [] m1 e1]; destruct t2 as [[] | [] | | [] m2 e2];
    try discriminate;
    destruct a as [[] | [] | | [] ma ea];
    try discriminate; try reflexivity;
    intros H1 H2; order_cases.
Qed.

(** ** Rounding keeps positive mantissas positive *)

Lemma shr_1_m (mrs : shr_record) :
  0 <= shr_m mrs -> shr_m (shr_1 mrs) = Z.div2 (shr_m mrs).
Proof.
  destruct mrs as [m r s]. simpl.
  destruct m as [| p | p]; [reflexivity | | lia].
  destruct p; reflexivity.
Qed.

Lemma iter_shr_1_m (q : positive) :
  forall mrs, 0 <= shr_m mrs ->
    shr_m (iter_pos shr_1 q mrs) = shr_m mrs / 2 ^ Zpos q.
Proof.
  assert (Hstep : forall mrs, 0 <= shr_m mrs ->
            0 <= shr_m (shr_1 mrs) /\ shr_m (shr_1 mrs) = shr_m mrs / 2).
  { intros mrs H. rewrite shr_1_m, Z.div2_div by exact H.
    split; [apply Z.div_pos; lia | reflexivity]. }
  induction q as [q IH | q IH |]; intros mrs H; cbn [iter_pos].
  - destruct (Hstep mrs H) as [H1 E1].
    assert (H2 : 0 <= shr_m (iter_pos shr_1 q (shr_1 mrs))).
    { rewrite IH by exact H1. apply Z.div_pos; lia. }
    rewrite IH by exact H2. rewrite IH by exact H1. rewrite E1.
    rewrite !Z.div_div by lia.
    f_equal.
    replace (Zpos q~1) with (1 + Zpos q + Zpos q) by lia.
    rewrite !Z.pow_add_r by lia. change (2 ^ 1) with 2. ring.
  - assert (H2 : 0 <= shr_m (iter_pos shr_1 q mrs)).
    { rewrite IH by exact H. apply Z.div_pos; lia. }
    rewrite IH by exact H2. rewrite IH by exact H.
    rewrite !Z.div_div by lia.
    f_equal.
    replace (Zpos q~0) with (Zpos q + Zpos q) by lia.
    rewrite Z.pow_add_r by lia. reflexivity.
  - destruct (Hstep mrs H) as [_ E1]. rewrite E1. reflexivity.
Qed.

Lemma digits2_pos_lower (p : positive) :
  2 ^ (Zpos (digits2_pos p) - 1) <= Zpos p.
Proof.
  induction p as [p IH | p IH |]; simpl digits2_pos.
  - rewrite Pos2Z.inj_succ.
    replace (Z.succ (Zpos (digits2_pos p)) - 1)
      with (1 + (Zpos (digits2_pos p) - 1)) by lia.
    rewrite Z.pow_add_r by lia. lia.
  - rewrite Pos2Z.inj_succ.
    replace (Z.succ (Zpos (digits2_pos p)) - 1)
      with (1 + (Zpos (digits2_pos p) - 1)) by lia.
    rewrite Z.pow_add_r by lia. lia.
  - simpl. lia.
Qed.

Lemma shr_fexp_positive (m : positive) (e : Z) (l : location) :
  emin prec emax <= e ->
  0 < shr_m (fst (shr_fexp prec emax (Zpos m) e l)) /\
  emin prec emax <= snd (shr_fexp prec emax (Zpos m) e l).
Proof.
  intros He. unfold shr_fexp, shr.
  assert (Hm : shr_m (shr_record_of_loc (Zpos m) l) = Zpos m)
    by (destruct l as [| []]; reflexivity).
  set (n := fexp prec emax (Zdigits2 (Zpos m) + e) - e).
  assert (Hn : n <= Zpos (digits2_pos m) - 1).
  { unfold n, fexp, Zdigits2, prec in *. lia. }
  destruct n as [| q | q] eqn:En; simpl; rewrite ?Hm; try (split; lia).
  rewrite iter_shr_1_m by (rewrite Hm; lia). rewrite Hm.
  split; [| lia].
  apply Z.div_str_pos. split; [apply Z.pow_pos_nonneg; lia |].
  pose proof (digits2_pos_lower m).
  assert (2 ^ Zpos q <= 2 ^ (Zpos (digits2_pos m) - 1))
    by (apply Z.pow_le_mono_r; lia).
  lia.
Qed.

Lemma round_nearest_even_positive (m : Z) (l : location) :
  0 < m -> 0 < round_nearest_even m l.
Proof.
  intros H. destruct l as [| []]; simpl; try lia.
  destruct (Z.even m); lia.
Qed.

(** Rounding a positive mantissa never gives a zero or a NaN. *)
Lemma binary_round_aux_positive (s : bool) (m : positive) (e : Z)
    (l : location) :
  emin prec emax <= e ->
  match binary_round_aux prec emax s (Zpos m) e l with
  | S754_finite s' _ _ | S754_infinity s' => s' = s
  | _ => False
  end.
Proof.
  intros He. unfold binary_round_aux.
  destruct (shr_fexp_positive m e l He) as [H1 H2].
  destruct (shr_fexp prec emax (Zpos m) e l) as [mrs' e']. simpl in H1, H2.
  pose proof (round_nearest_even_positive (shr_m mrs')
                (loc_of_shr_record mrs') H1) as Hr.
  destruct (round_nearest_even (shr_m mrs') (loc_of_shr_record mrs'))
    as [| m2 | m2]; try lia.
  destruct (shr_fexp_positive m2 e' loc_Exact H2) as [H3 _].
  destruct (shr_fexp prec emax (Zpos m2) e' loc_Exact) as [mrs'' e''].
  simpl in H3.
  destruct (shr_m mrs''); try lia.
  destruct (e'' <=? emax - prec); reflexivity.
Qed.

Lemma of_Z_positive (p : positive) :
  match Binary32.of_Z (Zpos p) with
  | S754_finite s _ _ | S754_infinity s => s = false
  | _ => False
  end.
Proof.
  unfold Binary32.of_Z, binary_normalize, binary_round.
  destruct (shl_align p 0 (fexp prec emax (Zpos (digits2_pos p) + 0)))
    as [mz ez] eqn:E.
  apply binary_round_aux_positive.
  unfold shl_align in E.
  destruct (fexp prec emax (Zpos (digits2_pos p) + 0) - 0) eqn:En;
    injection E as <- <-; unfold fexp, emin, prec, emax in *; lia.
Qed.

(** ** The arithmetic laws behind the intensities *)

Lemma binary_round_aux_sign (s : bool) (m e : Z) (l : location) :
  match binary_round_aux prec emax s m e l with
  | S754_zero s' | S754_finite s' _ _ | S754_infinity s' => s' = s
  | S754_nan => True
  end.
Proof.
  unfold binary_round_aux.
  destruct (shr_fexp prec emax m e l) as [mrs' e'].
  destruct (shr_fexp prec emax _ e' loc_Exact) as [mrs'' e''].
  destruct (shr_m mrs''); [reflexivity | | exact I].
  destruct (e'' <=? emax - prec); reflexivity.
Qed.

Lemma binary32_sqrt_nonneg (m : spec_float) :
  np_lt m np_zero = false -> np_isnan (np_sqrt m) = false ->
  np_le np_zero (np_sqrt m) = true.
Proof.
  change (np_zero (F := spec_float)) with (S754_zero false).
  destruct m as [s | [] | | [] mx ex]; try discriminate; try reflexivity.
  simpl np_sqrt. unfold SFsqrt. intros _.
  destruct (SFsqrt_core_binary prec emax (Zpos mx) ex) as [[mz ez] lz].
  pose proof (binary_round_aux_sign false mz ez lz) as Hs.
  destruct (binary_round_aux prec emax false mz ez lz) as [s | s | | s m e];
    try discriminate; subst s; reflexivity.
Qed.

Lemma binary32_sum_zeros (n : nat) :
  fold_left (SFadd prec emax) (repeat (S754_zero false) n) (S754_zero false) =
  S754_zero false.
Proof. induction n as [| n IH]; simpl; [reflexivity | exact IH]. Qed.

Lemma binary32_mean_zeros (n : nat) :
  np_mean (repeat (np_zero : spec_float) (S n)) = np_zero.
Proof.
  change (np_zero (F := spec_float)) with (S754_zero false).
  change (Binary32.mean (repeat (S754_zero false) (S n)) = S754_zero false).
  unfold Binary32.mean, Binary32.sum. rewrite binary32_sum_zeros.
  unfold Py.len. rewrite repeat_length.
  replace (Z.of_nat (S n)) with (Zpos (Pos.of_succ_nat n)) by lia.
  pose proof (of_Z_positive (Pos.of_succ_nat n)) as Hp.
  destruct (Binary32.of_Z (Zpos (Pos.of_succ_nat n))) as [s | s | | s m e];
    try contradiction; subst s; reflexivity.
Qed.

Lemma binary32_square_zero : np_square (np_zero : spec_float) = np_zero.
Proof. reflexivity. Qed.

Lemma binary32_sqrt_zero : np_sqrt (np_zero : spec_float) = np_zero.
Proof. reflexivity. Qed.

Lemma binary32_zero_not_negative :
  np_lt (np_zero : spec_float) np_zero = false.
Proof. reflexivity. Qed.

Lemma binary32_zero_not_nan : np_isnan (np_zero : spec_float) = false.
Proof. reflexivity. Qed.

End Binary32Laws.

(* ================================================================== *)
(** * The selection loops of the two scripts *)
(* ================================================================== *)

Section VariantFacts.
Context {F : Type} {NP : Numpy F}.

Lemma select_step_variants (v v' : string) (l : list F) (t : F) (d : Z)
    (st : loop_state) (i : Z) :
  VideoClipperV1.select_step v' l t d (restate v' st) i =
  restate v' (VideoClipper.select_step v l t d st i).
Proof.
  unfold VideoClipperV1.select_step, VideoClipper.select_step, restate.
  destruct (np_gt _ _); simpl; [| reflexivity].
  now rewrite map_app.
Qed.

Lemma select_fold_variants (v v' : string) (l : list F) (t : F) (d : Z)
    (idx : list Z) :
  forall st,
    fold_left (VideoClipperV1.select_step v' l t d) idx (restate v' st) =
    restate v' (fold_left (VideoClipper.select_step v l t d) idx st).
Proof.
  induction idx as [| i idx IH]; intros st; simpl; [reflexivity |].
  now rewrite (select_step_variants v v'), IH.
Qed.

Lemma select_clips_variants (v v' : string) (l : list F) (t : F) (d : Z) :
  VideoClipperV1.select_clips v' l t d =
  result_map (map (retarget v')) (VideoClipper.select_clips v l t d).
Proof.
  unfold VideoClipperV1.select_clips, VideoClipper.select_clips.
  destruct (Py.range 0 (Py.len l) (d * 10)) as [idx | e]; simpl;
    [| reflexivity].
  change (mk_state 0 0 []) with (restate v' (mk_state 0 0 [])) at 1.
  now rewrite (select_fold_variants v v').
Qed.

Lemma segments_retarget (v : string) (r : result (list clip_request)) :
  segments (result_map (map (retarget v)) r) = segments r.
Proof.
  destruct r as [cs | e]; [| reflexivity].
  unfold segments. simpl. rewrite map_map. apply map_ext.
  intros c. reflexivity.
Qed.

End VariantFacts.

(* ================================================================== *)
(** * The Window Selector *)
(* ================================================================== *)

Section SelectorOrder.
Context {A : Type} (R : A -> A -> Prop) (f : nat -> A) (p : nat -> bool).
Hypothesis f_mono : forall i j : nat, (i < j)%nat -> R (f i) (f j).

Lemma sorted_map_filter_seq (n : nat) :
  forall a, StronglySorted R (map f (filter p (seq a n))).
Proof.
  induction n as [| n IH]; intros a; cbn [seq filter].
  - constructor.
  - destruct (p a); [| apply IH].
    cbn [map]. constructor; [apply IH |].
    apply Forall_forall. intros y Hy.
    apply in_map_iff in Hy as (j & <- & Hj).
    apply filter_In in Hj as [Hj _].
    apply in_seq in Hj. apply f_mono. lia.
Qed.
End SelectorOrder.

Section DecisionRule.
Context {F : Type} {NP : Numpy F}.

(** [np.mean] of an empty array is NaN, and NaN exceeds nothing. *)
Hypothesis mean_nil_not_gt : forall t : F, np_gt (np_mean []) t = false.
(** [>] is strict. *)
Hypothesis gt_irrefl : forall x : F, np_gt x x = false.

Lemma decision_rule_select_clips (video : string) (l : list F) (t : F)
    (d : Z) :
  decision_rule (segments (VideoClipper.select_clips video l t d)) l t d.
Proof.
  assert (Hiff : forall k : nat,
      In (Z.of_nat k * d, d)
        (segments (VideoClipper.select_clips video l t d)) <->
      np_gt (np_mean (group_entries l k d)) t = true).
  { intros k.
    destruct (Z.lt_trichotomy d 0) as [Hd | [Hd | Hd]].
    - (* negative duration: the range is empty, and so is every group *)
      rewrite segments_select_clips by lia.
      rewrite group_count_nonpos by lia. cbn [seq filter map In].
      unfold group_entries.
      rewrite entries_between_empty_range by nia.
      rewrite mean_nil_not_gt. intuition discriminate.
    - (* zero duration: [range] raises before anything is emitted *)
      rewrite (select_clips_zero_duration video l t d Hd). subst d.
      cbn [segments requested map In].
      unfold group_entries.
      rewrite entries_between_empty_range by lia.
      rewrite mean_nil_not_gt. intuition discriminate.
    - rewrite segments_select_clips by lia.
      rewrite in_map_iff. split.
      + intros (j & Ej & Hj).
        apply filter_In in Hj as [_ Hsel].
        assert (j = k) by (cbn beta in Ej; injection Ej as Ej; nia). subst j.
        unfold group_selected in Hsel.
        now rewrite group_slice_entries in Hsel by assumption.
      + intros Hgt. exists k. split; [reflexivity |].
        apply filter_In.
        destruct (Nat.lt_ge_cases k (group_count l d)) as [Hk | Hk].
        * split; [apply in_seq; lia |].
          unfold group_selected.
          now rewrite group_slice_entries by assumption.
        * exfalso. unfold group_entries in Hgt.
          rewrite entries_between_past_end in Hgt.
          -- rewrite mean_nil_not_gt in Hgt. discriminate.
          -- pose proof (group_start_past_end l d k Hd Hk).
             unfold Py.len in *. lia. }
  split; [exact Hiff |]. split.
  - intros k E Hin. apply Hiff in Hin.
    rewrite E, gt_irrefl in Hin. discriminate.
  - intros seg Hin.
    destruct (Z.eq_dec d 0) as [Hd | Hd].
    { rewrite (select_clips_zero_duration video l t d Hd) in Hin.
      destruct Hin. }
    rewrite segments_select_clips in Hin by assumption.
    apply in_map_iff in Hin as (k & <- & Hk).
    exists k. split; [reflexivity |].
    apply Hiff. rewrite segments_select_clips by assumption.
    apply in_map_iff. now exists k.
Qed.

(** C1.  For every intensity sequence, threshold [t] and clip duration
    [d], in both scripts, the segment [(k * d, d)] is emitted exactly
    when the mean of group [k] (the entries at the indices
    [[k*d*10, (k+1)*d*10)]) is strictly greater than [t]; a group whose
    mean equals [t] is not selected, and every emitted segment is the
    segment of a selected group. *)
Theorem selector_decision_rule (video : string) (l : list F) (t : F)
    (d : Z) :
  decision_rule (segments (VideoClipper.select_clips video l t d)) l t d /\
  decision_rule (segments (VideoClipperV1.select_clips video l t d)) l t d.
Proof.
  split; [apply decision_rule_select_clips |].
  rewrite (select_clips_variants video video), segments_retarget.
  apply decision_rule_select_clips.
Qed.

End DecisionRule.

Section SelectorClaims.
Context {F : Type} {NP : Numpy F}.

(** C5.  For a positive clip duration the emitted segments are in
    strictly increasing order of start time and their windows
    [[start_time, start_time + duration)] do not overlap. *)
Theorem selector_windows_ordered (video : string) (l : list F) (t : F)
    (d : Z) :
  0 < d ->
  windows_ordered (segments (VideoClipper.select_clips video l t d)).
Proof.
  intros Hd. unfold windows_ordered.
  rewrite segments_select_clips by lia.
  apply sorted_map_filter_seq.
  intros i j Hij. unfold window_before. simpl. nia.
Qed.

(** C6.  When the length of the intensity sequence is not a multiple
    of [clip_duration * 10], the last group the loop averages consists
    of only the remaining entries, fewer than [clip_duration * 10],
    and it is selected, with duration [clip_duration], exactly when
    the mean of these entries exceeds the threshold. *)
Theorem selector_partial_last_group (video : string) (l : list F) (t : F)
    (d : Z) :
  0 < d ->
  Py.len l mod (d * 10) <> 0 ->
  let k := Z.to_nat (Py.len l / (d * 10)) in
  let rest := skipn (Z.to_nat (Z.of_nat k * (d * 10))) l in
  group_count l d = S k /\
  group_slice l d k = rest /\
  Py.len rest = Py.len l mod (d * 10) /\
  0 < Py.len rest < d * 10 /\
  (In (Z.of_nat k * d, d)
      (segments (VideoClipper.select_clips video l t d)) <->
   np_gt (np_mean rest) t = true).
Proof.
  intros Hd Hmod k rest.
  assert (Hlen : 0 <= Py.len l) by (unfold Py.len; lia).
  pose proof (Z.div_mod (Py.len l) (d * 10) ltac:(lia)) as E.
  pose proof (Z.mod_pos_bound (Py.len l) (d * 10) ltac:(lia)) as B.
  assert (Hq : 0 <= Py.len l / (d * 10)) by (apply Z.div_pos; lia).
  assert (Hk : Z.of_nat k = Py.len l / (d * 10)) by (unfold k; lia).
  assert (Hcount : group_count l d = S k).
  { unfold group_count.
    rewrite range_length_up by lia. unfold ceil_div.
    replace (Py.len l + d * 10 - 1)
      with ((Py.len l mod (d * 10) - 1) + (Py.len l / (d * 10) + 1) * (d * 10))
      by lia.
    rewrite Z.div_add by lia.
    rewrite Z.div_small by lia. lia. }
  assert (Hslice : group_slice l d k = rest).
  { unfold group_slice, rest.
    rewrite slice_firstn_skipn by nia.
    apply firstn_all2. rewrite length_skipn. unfold Py.len in *. nia. }
  assert (Hrest : Py.len rest = Py.len l mod (d * 10)).
  { unfold rest, Py.len. rewrite length_skipn. unfold Py.len in *. nia. }
  repeat split; try assumption; try lia.
  - intros Hin. rewrite segments_select_clips in Hin by lia.
    apply in_map_iff in Hin as (j & Ej & Hj).
    apply filter_In in Hj as [_ Hsel].
    assert (j = k) by (cbn beta in Ej; injection Ej as Ej; nia). subst j.
    unfold group_selected in Hsel. now rewrite Hslice in Hsel.
  - intros Hgt. rewrite segments_select_clips by lia.
    apply in_map_iff. exists k. split; [reflexivity |].
    apply filter_In. split; [apply in_seq; lia |].
    unfold group_selected. now rewrite Hslice.
Qed.


End SelectorClaims.

Section ThresholdMonotone.
Context {F : Type} {NP : Numpy F}.

(** [a > t2] and [t1 <= t2] give [a > t1]. *)
Hypothesis gt_antitone :
  forall a t1 t2 : F,
    np_le t1 t2 = true -> np_gt a t2 = true -> np_gt a t1 = true.

(** C10.  Lowering the threshold keeps every selected segment: for
    [t1 <= t2], each segment emitted with threshold [t2] is emitted
    with threshold [t1]. *)
Theorem selector_antitone (video : string) (l : list F) (d : Z)
    (t1 t2 : F) :
  np_le t1 t2 = true ->
  forall seg,
    In seg (segments (VideoClipper.select_clips video l t2 d)) ->
    In seg (segments (VideoClipper.select_clips video l t1 d)).
Proof.
  intros Hle seg.
  destruct (Z.eq_dec d 0) as [Hd | Hd].
  { now rewrite !(select_clips_zero_duration video l _ d Hd). }
  rewrite !segments_select_clips by assumption.
  rewrite !in_map_iff.
  intros (k & E & Hk). exists k. split; [exact E |].
  apply filter_In in Hk as [Hin Hsel]. apply filter_In.
  split; [exact Hin |].
  unfold group_selected in *. eauto.
Qed.

End ThresholdMonotone.

(* ================================================================== *)
(** * The Audio Intensity Analyzer *)
(* ================================================================== *)

Section FilterFacts.
Context {A : Type} (p : A -> bool).

Lemma filter_length_eq_iff (l : list A) :
  length (filter p l) = length l <-> forall x, In x l -> p x = true.
Proof.
  induction l as [| a l IH]; simpl.
  - split; [intros _ x [] | reflexivity].
  - pose proof (filter_length_le p l) as Hle.
    destruct (p a) eqn:Ea; simpl.
    + split.
      * intros E x [<- | Hx]; [exact Ea |].
        apply IH; [lia | exact Hx].
      * intros H. f_equal. apply IH. intros x Hx. apply H. now right.
    + split; [lia |].
      intros H. specialize (H a (or_introl eq_refl)). congruence.
Qed.

(** While no element has been dropped, positions are unchanged. *)
Lemma filter_nth_error_prefix (l : list A) :
  forall i : nat,
    (i < length l)%nat ->
    (forall j x, (j <= i)%nat -> nth_error l j = Some x -> p x = true) ->
    nth_error (filter p l) i = nth_error l i.
Proof.
  induction l as [| a l IH]; intros i Hi Hall; simpl in *; [lia |].
  rewrite (Hall 0%nat a ltac:(lia) eq_refl).
  destruct i as [| i]; [reflexivity |]. simpl.
  apply IH; [lia |].
  intros j x Hj Hx. apply (Hall (S j) x); [lia | exact Hx].
Qed.

(** An element of the filtered list comes from a position that is not
    earlier in the original list. *)
Lemma filter_nth_error_origin (l : list A) :
  forall (i : nat) (x : A),
    nth_error (filter p l) i = Some x ->
    exists j : nat, (i <= j)%nat /\ nth_error l j = Some x /\ p x = true.
Proof.
  induction l as [| a l IH]; intros i x H; simpl in *.
  - destruct i; discriminate.
  - destruct (p a) eqn:Ea.
    + destruct i as [| i]; simpl in H.
      * injection H as <-. exists 0%nat. repeat split; [lia | exact Ea].
      * destruct (IH i x H) as (j & Hj & Hn & Hp).
        exists (S j). repeat split; [lia | exact Hn | exact Hp].
    + destruct (IH i x H) as (j & Hj & Hn & Hp).
      exists (S j). repeat split; [lia | exact Hn | exact Hp].
Qed.
End FilterFacts.

Section AnalyzerFacts.
Context {F Sound : Type} {NP : Numpy F} {PD : Pydub Sound}.

Lemma analyze_chunk_spec (acc : list F) (c : Sound) :
  VideoClipper.analyze_chunk acc c =
  acc ++ (if chunk_kept c then [chunk_rms c] else []).
Proof.
  unfold VideoClipper.analyze_chunk, chunk_kept, chunk_empty,
    chunk_negative, chunk_nan, chunk_rms, VideoClipper.rms_of.
  destruct (Py.len (get_array_of_samples c) =? 0); simpl;
    [now rewrite app_nil_r |].
  destruct (np_lt _ _); simpl; [now rewrite app_nil_r |].
  destruct (np_isnan _); simpl; [now rewrite app_nil_r | reflexivity].
Qed.

Lemma analyze_chunk_dropped (acc : list F) (c : Sound) :
  chunk_kept c = false -> VideoClipper.analyze_chunk acc c = acc.
Proof.
  intros H. rewrite analyze_chunk_spec, H. apply app_nil_r.
Qed.

Lemma analyze_fold (cs : list Sound) :
  forall acc : list F,
    fold_left VideoClipper.analyze_chunk cs acc =
    acc ++ map chunk_rms (filter chunk_kept cs).
Proof.
  induction cs as [| c cs IH]; intros acc; simpl.
  - now rewrite app_nil_r.
  - rewrite IH, analyze_chunk_spec, <- app_assoc. f_equal.
    destruct (chunk_kept c); reflexivity.
Qed.

(** The chunk list of line 34. *)
Lemma chunks_of_spec (s : Sound) :
  VideoClipper.chunks_of s = Ok (map (chunk_at s) (seq 0 (chunk_count s))).
Proof.
  unfold VideoClipper.chunks_of, VideoClipper.chunk_length_ms.
  rewrite range_nonzero by lia. cbn [Py.bind].
  rewrite range_length_up by lia.
  rewrite map_map. reflexivity.
Qed.

Lemma get_audio_intensity_spec (s : Sound) :
  VideoClipper.get_audio_intensity s =
  Ok (map chunk_rms
        (filter chunk_kept (map (chunk_at s) (seq 0 (chunk_count s))))).
Proof.
  unfold VideoClipper.get_audio_intensity.
  rewrite chunks_of_spec. cbn [Py.bind].
  now rewrite analyze_fold.
Qed.

Lemma chunk_count_ceil (s : Sound) :
  Z.of_nat (chunk_count s) = ceil_div (Z.of_nat (sound_len s)) 100.
Proof.
  unfold chunk_count.
  pose proof (ceil_div_bounds (Z.of_nat (sound_len s)) 100
                ltac:(lia) ltac:(lia)).
  lia.
Qed.

End AnalyzerFacts.

Section AnalyzerClaims.
Context {F Sound : Type} {NP : Numpy F} {PD : Pydub Sound}.

(** C2.  For a sound of [L] milliseconds the Analyzer returns at most
    [ceil (L / 100)] intensities, and exactly that many when and only
    when no chunk is empty, has a negative mean square or has a NaN
    RMS. *)
Theorem analyzer_output_length (s : Sound) :
  exists (chunks : list Sound) (out : list F),
    VideoClipper.chunks_of s = Ok chunks /\
    VideoClipper.get_audio_intensity s = Ok out /\
    Py.len chunks = ceil_div (Z.of_nat (sound_len s)) 100 /\
    Py.len out <= ceil_div (Z.of_nat (sound_len s)) 100 /\
    (Py.len out = ceil_div (Z.of_nat (sound_len s)) 100 <->
     forall c, In c chunks ->
       chunk_empty c = false /\
       chunk_negative c = false /\
       chunk_nan c = false).
Proof.
  exists (map (chunk_at s) (seq 0 (chunk_count s))). eexists.
  split; [apply chunks_of_spec |].
  split; [apply get_audio_intensity_spec |].
  set (chunks := map (chunk_at s) (seq 0 (chunk_count s))).
  assert (Hn : Py.len chunks = ceil_div (Z.of_nat (sound_len s)) 100).
  { unfold Py.len, chunks. rewrite length_map, length_seq.
    apply chunk_count_ceil. }
  pose proof (filter_length_le chunk_kept chunks) as Hle.
  split; [exact Hn |]. rewrite <- Hn. unfold Py.len.
  rewrite length_map.
  split; [lia |]. split.
  - intros E c Hc.
    assert (Hk : chunk_kept c = true).
    { apply (proj1 (filter_length_eq_iff chunk_kept chunks)); [lia | exact Hc]. }
    unfold chunk_kept in Hk.
    apply andb_prop in Hk as [Hk H3]. apply andb_prop in Hk as [H1 H2].
    now rewrite negb_true_iff in H1, H2, H3.
  - intros H. f_equal.
    apply filter_length_eq_iff. intros c Hc.
    destruct (H c Hc) as (H1 & H2 & H3).
    unfold chunk_kept. now rewrite H1, H2, H3.
Qed.


(** C7.  The Analyzer returns for every sound: the chunk list is built
    without raising, the result is the list of the RMS values of the
    kept chunks, and a chunk that is empty, has a negative mean square
    or a NaN RMS leaves the list of intensities as it was. *)
Theorem analyzer_never_raises (s : Sound) :
  exists (chunks : list Sound) (out : list F),
    VideoClipper.chunks_of s = Ok chunks /\
    VideoClipper.get_audio_intensity s = Ok out /\
    out = map chunk_rms (filter chunk_kept chunks) /\
    (forall (acc : list F) (c : Sound),
        chunk_empty c = true \/ chunk_negative c = true \/
        chunk_nan c = true ->
        VideoClipper.analyze_chunk acc c = acc).
Proof.
  exists (map (chunk_at s) (seq 0 (chunk_count s))). eexists.
  split; [apply chunks_of_spec |].
  split; [apply get_audio_intensity_spec |].
  split; [reflexivity |].
  intros acc c H. apply analyze_chunk_dropped. unfold chunk_kept.
  destruct H as [-> | [-> | ->]]; simpl;
    rewrite ?andb_false_r; reflexivity.
Qed.

End AnalyzerClaims.

Section AnalyzerValues.
Context {F Sound : Type} {NP : Numpy F} {PD : Pydub Sound}.

(** Laws of IEEE arithmetic the values rest on.  The square root of a
    non-negative number, when it is a number, is non-negative. *)
Hypothesis sqrt_nonneg :
  forall m : F,
    np_lt m np_zero = false -> np_isnan (np_sqrt m) = false ->
    np_le np_zero (np_sqrt m) = true.
(** Zero squared, averaged and rooted stays zero; it is a number and
    not below itself. *)
Hypothesis square_zero : np_square np_zero = np_zero.
Hypothesis mean_zeros : forall n : nat, np_mean (repeat np_zero (S n)) = np_zero.
Hypothesis sqrt_zero : np_sqrt np_zero = np_zero.
Hypothesis zero_not_negative : np_lt np_zero np_zero = false.
Hypothesis zero_not_nan : np_isnan np_zero = false.
(** The RMS of PCM samples does not overflow the float format. *)
Hypothesis rms_no_overflow :
  forall samples : list Z,
    samples <> [] -> Forall pcm_sample samples ->
    np_isinf (VideoClipper.rms_of samples) = false.

Lemma all_zero_repeat (l : list Z) :
  Forall (fun x => x = 0) l -> l = repeat 0 (length l).
Proof.
  induction 1 as [| x l Hx _ IH]; simpl; [reflexivity |].
  now rewrite Hx, <- IH.
Qed.

Lemma rms_of_zeros (n : nat) :
  VideoClipper.rms_of (repeat 0 (S n)) = (np_zero : F).
Proof.
  unfold VideoClipper.rms_of, VideoClipper.mean_square.
  rewrite !map_repeat. fold (np_zero (F := F)).
  now rewrite square_zero, mean_zeros, sqrt_zero.
Qed.


End AnalyzerValues.

(* ================================================================== *)
(** * The two variants *)
(* ================================================================== *)

Section Variants.
Context {F Sound : Type} {NP : Numpy F} {PD : Pydub Sound}.


End Variants.

(* ================================================================== *)
(** * Laws of the integer scalars and of timeline sounds *)
(* ================================================================== *)

Module IntScalarLaws.

Lemma int_sqrt_nonneg (m : IntScalar.t) :
  np_lt m np_zero = false -> np_isnan (np_sqrt m) = false ->
  np_le np_zero (np_sqrt m) = true.
Proof.
  destruct m as [a |]; simpl; [| discriminate].
  intros Hlt _. apply Z.ltb_ge in Hlt.
  destruct (Z.ltb_spec a 0); [lia |]. simpl.
  apply Z.leb_le, Z.sqrt_nonneg.
Qed.

Lemma int_total_zeros (n : nat) :
  IntScalar.total (@repeat IntScalar.t (Some 0) n) = Some 0.
Proof. induction n as [| n IH]; simpl; [| rewrite IH]; reflexivity. Qed.

Lemma int_mean_zeros (n : nat) :
  np_mean (repeat (np_zero : IntScalar.t) (S n)) = np_zero.
Proof.
  change (np_zero : IntScalar.t) with (Some 0 : IntScalar.t).
  change (IntScalar.mean (repeat (Some 0) (S n)) = Some 0).
  unfold IntScalar.mean. cbn [repeat].
  change (Some 0 :: repeat (Some 0) n)
    with (@repeat IntScalar.t (Some 0) (S n)).
  rewrite int_total_zeros. cbn [repeat]. now rewrite Zdiv_0_l.
Qed.

Lemma int_gt_antitone (a t1 t2 : IntScalar.t) :
  np_le t1 t2 = true -> np_gt a t2 = true -> np_gt a t1 = true.
Proof.
  destruct a, t1, t2; simpl; try discriminate.
  rewrite Z.leb_le, !Z.ltb_lt. lia.
Qed.

Lemma int_rms_no_overflow (samples : list Z) :
  samples <> [] -> Forall pcm_sample samples ->
  np_isinf (VideoClipper.rms_of (F := IntScalar.t) samples) = false.
Proof. reflexivity. Qed.

End IntScalarLaws.

Module TimelineLaws.

Lemma Forall_slice {A} (P : A -> Prop) (l : list A) (lo hi : Z) :
  Forall P l -> Forall P (Py.slice l lo hi).
Proof.
  intros H. unfold Py.slice.
  set (a := Z.to_nat _). set (b := Z.to_nat _).
  rewrite <- (firstn_skipn b l) in H. apply Forall_app in H as [_ H].
  rewrite <- (firstn_skipn a (skipn b l)) in H.
  now apply Forall_app in H as [H _].
Qed.

(** A timeline of PCM samples is a PCM sound. *)
Lemma pcm_sound_intro (s : Timeline.t) :
  Forall (Forall pcm_sample) s -> pcm_sound s.
Proof.
  intros H i. unfold chunk_at. simpl.
  apply Forall_concat. now apply Forall_slice.
Qed.

Lemma pcm_dense (samples : list Z) :
  Forall pcm_sample samples -> Forall (Forall pcm_sample) (dense samples).
Proof.
  intros H. unfold dense. apply Forall_map.
  eapply Forall_impl; [| exact H].
  intros x Hx. now constructor.
Qed.

End TimelineLaws.

(* ================================================================== *)
(** * Runs on concrete inputs *)
(* ================================================================== *)

(** Scenario A of the specification: one loud minute is selected. *)
Example scenario_loud_minute :
  segments (VideoClipper.select_clips "pubg.mp4" (level 10 600)
              (Binary32.of_Z 5) 60) = [(0, 60)].
Proof. vm_compute. reflexivity. Qed.

(** Scenario B: a quiet minute is not. *)
Example scenario_quiet_minute :
  segments (VideoClipper.select_clips "pubg.mp4" (level 1 600)
              (Binary32.of_Z 5) 60) = [].
Proof. vm_compute. reflexivity. Qed.

(** Scenario C: only the loud one of two minutes. *)
Example scenario_loud_then_quiet :
  VideoClipper.select_clips "pubg.mp4" loud_then_quiet (Binary32.of_Z 5) 60 =
  Ok [mk_clip "pubg.mp4" 0 60 "output_clips/clip_1.mp4"].
Proof. vm_compute. reflexivity. Qed.

(** A mean equal to the threshold does not select. *)
Example scenario_threshold_boundary :
  segments (VideoClipper.select_clips "pubg.mp4" (level 5 600)
              (Binary32.of_Z 5) 60) = [].
Proof. vm_compute. reflexivity. Qed.

(** A partial last group is averaged over what is left and still gives
    a clip of the full duration; clips are numbered in emission order. *)
Example scenario_partial_group :
  VideoClipper.select_clips "pubg.mp4" (level 1 10 ++ loud_25)
    (Binary32.of_Z 5) 1 =
  Ok [mk_clip "pubg.mp4" 1 1 "output_clips/clip_1.mp4";
      mk_clip "pubg.mp4" 2 1 "output_clips/clip_2.mp4";
      mk_clip "pubg.mp4" 3 1 "output_clips/clip_3.mp4"].
Proof. vm_compute. reflexivity. Qed.

(** A zero clip duration makes [range] raise; a negative one gives an
    empty loop. *)
Example scenario_zero_duration :
  VideoClipper.select_clips "pubg.mp4" loud_25 (Binary32.of_Z 5) 0 =
  Raise (ValueError "range() arg 3 must not be zero").
Proof. reflexivity. Qed.

Example scenario_negative_duration :
  VideoClipper.select_clips "pubg.mp4" loud_25 (Binary32.of_Z 5) (-60) = Ok [].
Proof. vm_compute. reflexivity. Qed.

(** Scenario D: chunks without samples add no entry.  On the 5 Hz track
    three of the six chunks are empty and the output has three entries,
    3.0, 4.0 and 5.0. *)
Example scenario_empty_chunks :
  VideoClipper.get_audio_intensity low_rate =
  Ok [Binary32.of_Z 3; Binary32.of_Z 4; Binary32.of_Z 5].
Proof. vm_compute. reflexivity. Qed.

(** A silent chunk has intensity exactly zero, in binary32 too. *)
Example scenario_silence :
  VideoClipper.get_audio_intensity short_track =
  Ok [S754_zero false; Binary32.of_Z 3; Binary32.of_Z 4].
Proof. vm_compute. reflexivity. Qed.


(* ================================================================== *)
(** * Instances of the theorems *)
(* ================================================================== *)

Lemma selector_decision_rule_witness :
  (forall t : spec_float, np_gt (np_mean []) t = false) /\
  (forall x : spec_float, np_gt x x = false) /\
  (forall k : nat,
      In (Z.of_nat k * 1, 1)
        (segments (VideoClipper.select_clips "pubg.mp4" loud_25
                     (Binary32.of_Z 5) 1)) <->
      np_gt (np_mean (group_entries loud_25 k 1)) (Binary32.of_Z 5) = true).
Proof.
  split; [exact Binary32Laws.binary32_mean_nil_not_gt |].
  split; [exact Binary32Laws.binary32_gt_irrefl |].
  exact (proj1 (proj1 (selector_decision_rule
                         Binary32Laws.binary32_mean_nil_not_gt
                         Binary32Laws.binary32_gt_irrefl
                         "pubg.mp4" loud_25 (Binary32.of_Z 5) 1))).
Defined.

Lemma selector_windows_ordered_witness :
  0 < 60 /\
  windows_ordered
    (segments (VideoClipper.select_clips "pubg.mp4" loud_then_quiet
                 (Binary32.of_Z 5) 60)).
Proof.
  split; [lia |].
  apply (selector_windows_ordered "pubg.mp4" loud_then_quiet
           (Binary32.of_Z 5) 60).
  lia.
Defined.

Lemma selector_partial_last_group_witness :
  0 < 1 /\ Py.len loud_25 mod (1 * 10) <> 0 /\
  group_count loud_25 1 = 3%nat /\
  group_slice loud_25 1 2 = level 10 5.
Proof.
  assert (H1 : 0 < 1) by lia.
  assert (H2 : Py.len loud_25 mod (1 * 10) <> 0) by (vm_compute; discriminate).
  split; [exact H1 |]. split; [exact H2 |].
  pose proof (selector_partial_last_group "pubg.mp4" loud_25
                (Binary32.of_Z 5) 1 H1 H2) as (Hc & Hs & _).
  split; [exact Hc | exact Hs].
Defined.


Lemma selector_antitone_witness :
  np_le (Binary32.of_Z 5) (Binary32.of_Z 7) = true /\
  forall seg,
    In seg (segments (VideoClipper.select_clips "pubg.mp4" loud_then_quiet
                        (Binary32.of_Z 7) 60)) ->
    In seg (segments (VideoClipper.select_clips "pubg.mp4" loud_then_quiet
                        (Binary32.of_Z 5) 60)).
Proof.
  split; [reflexivity |].
  apply (selector_antitone Binary32Laws.binary32_gt_antitone).
  reflexivity.
Defined.


(* ================================================================== *)
(** * More about the selection loop and [process_video] *)
(* ================================================================== *)

Section Numbering.
Context {F : Type} {NP : Numpy F}.
Variables (video : string) (l : list F) (t : F) (d : Z).

Lemma select_step_numbered (st : loop_state) (i : Z) :
  well_numbered video d st ->
  well_numbered video d (VideoClipper.select_step video l t d st i).
Proof.
  intros [Hc Hn]. unfold VideoClipper.select_step, well_numbered.
  destruct (np_gt _ _); cbn [st_clip_count st_clips st_start_time];
    [| split; assumption].
  split.
  - unfold Py.len in *. rewrite length_app. simpl length. lia.
  - intros j req Hj.
    destruct (Nat.lt_ge_cases j (length (st_clips st))) as [Hlt | Hge].
    + rewrite nth_error_app1 in Hj by exact Hlt. now apply Hn.
    + rewrite nth_error_app2 in Hj by exact Hge.
      destruct (j - length (st_clips st))%nat as [| m] eqn:Em;
        cbn [nth_error] in Hj.
      * injection Hj as <-.
        assert (Ej : Z.of_nat j + 1 = st_clip_count st + 1)
          by (unfold Py.len in Hc; lia).
        rewrite Ej. repeat split.
      * destruct m; discriminate.
Qed.

Lemma select_fold_numbered (idx : list Z) :
  forall st,
    well_numbered video d st ->
    well_numbered video d
      (fold_left (VideoClipper.select_step video l t d) idx st).
Proof.
  induction idx as [| i idx IH]; intros st H; simpl; [exact H |].
  apply IH, select_step_numbered, H.
Qed.

Lemma select_clips_well_numbered :
  forall (i : nat) (req : clip_request),
    nth_error (requested (VideoClipper.select_clips video l t d)) i = Some req ->
    output_filename req = clip_name (Z.of_nat i + 1) /\
    video_file req = video /\ duration req = d.
Proof.
  unfold VideoClipper.select_clips.
  destruct (Py.range 0 (Py.len l) (d * 10)) as [idx | e]; simpl.
  - apply select_fold_numbered. split; [reflexivity |].
    intros [| i] req H; discriminate.
  - intros [| i] req H; discriminate.
Qed.
End Numbering.

Lemma str_of_int_inj (a b : Z) : Py.str_of_int a = Py.str_of_int b -> a = b.
Proof.
  unfold Py.str_of_int. intros E.
  apply DecimalZ.to_int_inj.
  assert (Hnn : forall z, Z.to_int z <> Decimal.Pos Decimal.Nil /\
                          Z.to_int z <> Decimal.Neg Decimal.Nil).
  { intros [| p | p]; simpl; split; try discriminate;
      intros H; injection H as H; now apply Unsigned.to_uint_nonnil in H. }
  destruct (Hnn a) as [Ha1 Ha2]. destruct (Hnn b) as [Hb1 Hb2].
  pose proof (NilZero.isi _ Ha1 Ha2) as Ia.
  pose proof (NilZero.isi _ Hb1 Hb2) as Ib.
  rewrite E in Ia. rewrite Ia in Ib. now injection Ib.
Qed.

Lemma append_inj_l (s a b : string) : (s ++ a = s ++ b)%string -> a = b.
Proof.
  induction s as [| c s IH]; simpl; [trivial |].
  intros H. injection H as H. now apply IH.
Qed.

Lemma append_length (a b : string) :
  String.length (a ++ b) = (String.length a + String.length b)%nat.
Proof. induction a as [| c a IH]; simpl; [| rewrite IH]; reflexivity. Qed.

Lemma append_inj_r (s : string) :
  forall a b : string, (a ++ s = b ++ s)%string -> a = b.
Proof.
  induction a as [| c a IH]; intros [| c' b] H; simpl in *.
  - reflexivity.
  - apply (f_equal String.length) in H. simpl in H.
    rewrite append_length in H. lia.
  - apply (f_equal String.length) in H. simpl in H.
    rewrite append_length in H. lia.
  - injection H as -> H. f_equal. now apply IH.
Qed.

Lemma clip_name_inj (a b : Z) : clip_name a = clip_name b -> a = b.
Proof.
  unfold clip_name, Py.path_join. intros H.
  apply append_inj_l in H. apply (append_inj_l "/") in H.
  apply (append_inj_l "clip_") in H.
  apply append_inj_r in H. now apply str_of_int_inj.
Qed.

Section SelectorExtras.
Context {F : Type} {NP : Numpy F}.

(** X1.  The clips of a run are numbered from 1 in the order of their
    emission: the request number [i] (counted from 0) is written to
    [output_clips/clip_<i+1>.mp4], is cut from the video the loop was
    given and lasts [clip_duration] seconds. *)
Theorem select_clips_numbering (video : string) (l : list F) (t : F) (d : Z)
    (i : nat) (req : clip_request) :
  nth_error (requested (VideoClipper.select_clips video l t d)) i = Some req ->
  output_filename req = clip_name (Z.of_nat i + 1) /\
  video_file req = video /\ duration req = d.
Proof. apply select_clips_well_numbered. Qed.

(** X2.  No two clips of one run are written to the same file. *)
Theorem select_clips_distinct_files (video : string) (l : list F) (t : F)
    (d : Z) :
  NoDup (map output_filename
           (requested (VideoClipper.select_clips video l t d))).
Proof.
  apply NoDup_nth_error. intros i j Hi E.
  rewrite length_map in Hi. rewrite !nth_error_map in E.
  destruct (nth_error (requested (VideoClipper.select_clips video l t d)) i)
    as [ri |] eqn:Ei; [| apply nth_error_None in Ei; lia].
  destruct (nth_error (requested (VideoClipper.select_clips video l t d)) j)
    as [rj |] eqn:Ej; [| discriminate].
  apply select_clips_well_numbered in Ei as [Ni _].
  apply select_clips_well_numbered in Ej as [Nj _].
  simpl in E. injection E as E. rewrite Ni, Nj in E.
  apply clip_name_inj in E. lia.
Qed.

(** X3.  For a positive clip duration the loop requests at most
    [ceil (len / (clip_duration * 10))] clips, and every one of them
    starts at a non-negative time inside the intensity sequence
    ([10 * start_time < len]) and lasts [clip_duration] seconds. *)
Theorem select_clips_bounds (video : string) (l : list F) (t : F) (d : Z) :
  0 < d ->
  Py.len (requested (VideoClipper.select_clips video l t d))
    <= ceil_div (Py.len l) (d * 10) /\
  forall seg,
    In seg (segments (VideoClipper.select_clips video l t d)) ->
    0 <= fst seg /\ 10 * fst seg < Py.len l /\ snd seg = d.
Proof.
  intros Hd. split.
  - rewrite <- (group_count_pos l d Hd).
    assert (E : length (requested (VideoClipper.select_clips video l t d)) =
                length (segments (VideoClipper.select_clips video l t d)))
      by (unfold segments; now rewrite length_map).
    unfold Py.len. rewrite E, segments_select_clips by lia.
    rewrite length_map.
    pose proof (filter_length_le (group_selected l t d)
                  (seq 0 (group_count l d))) as Hle.
    rewrite length_seq in Hle. lia.
  - intros seg Hin. rewrite segments_select_clips in Hin by lia.
    apply in_map_iff in Hin as (k & <- & Hk).
    apply filter_In in Hk as [Hk _]. apply in_seq in Hk.
    pose proof (group_start_in_range l d k Hd ltac:(lia)) as Hb.
    cbn [fst snd]. split; [nia |]. split; [lia | reflexivity].
Qed.

End SelectorExtras.

Section Concatenation.
Context {F : Type} {NP : Numpy F}.
Variables (l l' : list F) (d : Z) (m : nat).
Hypothesis d_pos : 0 < d.
Hypothesis l_aligned : Py.len l = Z.of_nat m * (d * 10).

Lemma group_count_aligned : group_count l d = m.
Proof.
  pose proof (group_count_pos l d d_pos) as E.
  rewrite l_aligned in E. unfold ceil_div in E.
  replace (Z.of_nat m * (d * 10) + d * 10 - 1)
    with (d * 10 - 1 + Z.of_nat m * (d * 10)) in E by lia.
  rewrite Z.div_add, Z.div_small in E by lia. lia.
Qed.

Lemma group_count_app :
  group_count (l ++ l') d = (m + group_count l' d)%nat.
Proof.
  pose proof (group_count_pos (l ++ l') d d_pos) as E.
  pose proof (group_count_pos l' d d_pos) as E'.
  unfold Py.len in E. rewrite length_app, Nat2Z.inj_add in E.
  fold (Py.len l) in E. fold (Py.len l') in E.
  rewrite l_aligned in E. unfold ceil_div in *.
  replace (Z.of_nat m * (d * 10) + Py.len l' + d * 10 - 1)
    with (Py.len l' + d * 10 - 1 + Z.of_nat m * (d * 10)) in E by lia.
  rewrite Z.div_add in E by lia. lia.
Qed.

Lemma group_slice_app_left (k : nat) :
  (k < m)%nat -> group_slice (l ++ l') d k = group_slice l d k.
Proof.
  intros Hk. unfold group_slice.
  rewrite !slice_firstn_skipn by nia.
  assert (Hlen : (Z.to_nat (Z.of_nat k * (d * 10)) +
                  Z.to_nat (Z.of_nat k * (d * 10) + d * 10 -
                            Z.of_nat k * (d * 10)) <= length l)%nat)
    by (unfold Py.len in l_aligned; nia).
  rewrite skipn_app, firstn_app, length_skipn.
  replace (Z.to_nat (Z.of_nat k * (d * 10) + d * 10 - Z.of_nat k * (d * 10)) -
           (length l - Z.to_nat (Z.of_nat k * (d * 10))))%nat
    with 0%nat by lia.
  now rewrite firstn_O, app_nil_r.
Qed.

Lemma group_slice_app_right (j : nat) :
  group_slice (l ++ l') d (m + j) = group_slice l' d j.
Proof.
  unfold group_slice.
  rewrite !slice_firstn_skipn by nia.
  assert (Hoff : Z.to_nat (Z.of_nat (m + j) * (d * 10)) =
                 (length l + Z.to_nat (Z.of_nat j * (d * 10)))%nat)
    by (unfold Py.len in l_aligned; nia).
  rewrite Hoff, skipn_app.
  rewrite skipn_all2 by lia.
  replace (length l + Z.to_nat (Z.of_nat j * (d * 10)) - length l)%nat
    with (Z.to_nat (Z.of_nat j * (d * 10))) by lia.
  cbn [app]. f_equal. lia.
Qed.

Lemma seq_add_start (a n : nat) :
  seq (m + a) n = map (Nat.add m) (seq a n).
Proof.
  revert a. induction n as [| n IH]; intros a; simpl; [reflexivity |].
  f_equal. rewrite <- IH. f_equal. lia.
Qed.

Lemma filter_map_comm {A B} (p : B -> bool) (g : A -> B) (xs : list A) :
  filter p (map g xs) = map g (filter (fun x => p (g x)) xs).
Proof.
  induction xs as [| x xs IH]; simpl; [reflexivity |].
  destruct (p (g x)); simpl; now rewrite IH.
Qed.

(** X5.  Selection is local to the groups.  When [l] holds a whole
    number [m] of groups, the segments selected from [l ++ l'] are those
    selected from [l] followed by those selected from [l'], the latter
    moved [m * clip_duration] seconds later. *)
Theorem select_clips_concat (video : string) (t : F) :
  segments (VideoClipper.select_clips video (l ++ l') t d) =
  segments (VideoClipper.select_clips video l t d) ++
  map (shift_segment (Z.of_nat m * d))
    (segments (VideoClipper.select_clips video l' t d)).
Proof.
  rewrite !segments_select_clips by lia.
  rewrite group_count_app, group_count_aligned.
  rewrite seq_app, filter_app, map_app. f_equal.
  - f_equal. apply filter_ext_in. intros k Hk. apply in_seq in Hk.
    unfold group_selected. now rewrite group_slice_app_left by lia.
  - replace (0 + m)%nat with (m + 0)%nat by lia.
    rewrite seq_add_start, filter_map_comm, !map_map.
    rewrite (filter_ext (fun x => group_selected (l ++ l') t d (m + x))
               (group_selected l' t d)).
    + apply map_ext. intros j. unfold shift_segment. cbn [fst snd].
      f_equal. lia.
    + intros j. unfold group_selected. now rewrite group_slice_app_right.
Qed.

End Concatenation.

Section ProcessVideoExtras.
Context {F Sound : Type} {NP : Numpy F} {PD : Pydub Sound}.

Lemma select_clips_negative_duration (video : string) (l : list F) (t : F)
    (d : Z) :
  d < 0 -> VideoClipper.select_clips video l t d = Ok [].
Proof.
  intros Hd. unfold VideoClipper.select_clips.
  rewrite range_nonzero by lia.
  rewrite range_length_down by (unfold Py.len; lia).
  reflexivity.
Qed.

Lemma select_clips_ok (video : string) (l : list F) (t : F) (d : Z) :
  d <> 0 ->
  VideoClipper.select_clips video l t d =
  Ok (requested (VideoClipper.select_clips video l t d)).
Proof.
  intros Hd. unfold VideoClipper.select_clips.
  rewrite range_nonzero by lia. reflexivity.
Qed.

Lemma intensities_length (s : Sound) (out : list F) :
  VideoClipper.get_audio_intensity s = Ok out ->
  Py.len out <= ceil_div (Z.of_nat (sound_len s)) 100.
Proof.
  rewrite get_audio_intensity_spec. intros H. injection H as <-.
  unfold Py.len. rewrite length_map.
  pose proof (filter_length_le chunk_kept
                (map (chunk_at s) (seq 0 (chunk_count s)))) as Hle.
  rewrite length_map, length_seq in Hle.
  rewrite <- chunk_count_ceil. lia.
Qed.


Lemma process_video_requests (s : Sound) (input : string) (t : F) (d : Z) :
  0 < d ->
  exists reqs : list clip_request,
    VideoClipper.process_video s input t d = Ok reqs /\
    forall (i : nat) (req : clip_request),
      nth_error reqs i = Some req ->
      output_filename req = clip_name (Z.of_nat i + 1) /\
      video_file req = VideoClipper.converted_video_file /\
      duration req = d /\
      0 <= start_time req /\
      start_time req * 1000 < Z.of_nat (sound_len s).
Proof.
  intros Hd. unfold VideoClipper.process_video.
  destruct (VideoClipper.get_audio_intensity s) as [out | e] eqn:Eo;
    [| rewrite get_audio_intensity_spec in Eo; discriminate].
  cbn [Py.bind]. eexists. split; [apply select_clips_ok; lia |].
  intros i req Hi.
  pose proof (nth_error_In _ _ Hi) as Hin.
  apply select_clips_well_numbered in Hi as (Hn & Hv & Hdur).
  split; [exact Hn |]. split; [exact Hv |]. split; [exact Hdur |].
  assert (Hseg : In (segment_of req)
                   (segments (VideoClipper.select_clips
                                VideoClipper.converted_video_file out t d)))
    by (unfold segments; now apply in_map).
  rewrite segments_select_clips in Hseg by lia.
  apply in_map_iff in Hseg as (k & Ek & Hk).
  apply filter_In in Hk as [Hk _]. apply in_seq in Hk.
  pose proof (group_start_in_range out d k Hd ltac:(lia)) as Hb.
  pose proof (intensities_length s out Eo) as Hlen.
  destruct (ceil_div_bounds (Z.of_nat (sound_len s)) 100) as (_ & Hc & _);
    [lia | lia |].
  unfold segment_of in Ek. injection Ek as Es _.
  destruct (Z.eqb_spec (Z.of_nat (sound_len s)) 0) as [E0 | E0].
  - rewrite E0 in Hlen. unfold ceil_div in Hlen.
    rewrite Z.div_small in Hlen by lia. lia.
  - nia.
Qed.


End ProcessVideoExtras.

Section MoreSelectorExtras.
Context {F Sound : Type} {NP : Numpy F} {PD : Pydub Sound}.

(** X4.  For a positive clip duration the clip number [i + 1] starts no
    earlier than [i * clip_duration] seconds: the start time advances
    with every group, the clip number only with the selected ones. *)
Theorem select_clips_start_lower_bound (video : string) (l : list F) (t : F)
    (d : Z) (i : nat) (req : clip_request) :
  0 < d ->
  nth_error (requested (VideoClipper.select_clips video l t d)) i = Some req ->
  Z.of_nat i * d <= start_time req.
Proof.
  intros Hd Hreq.
  assert (Hseg : nth_error (segments (VideoClipper.select_clips video l t d)) i
                 = Some (segment_of req))
    by (unfold segments; now rewrite nth_error_map, Hreq).
  rewrite segments_select_clips, nth_error_map in Hseg by lia.
  destruct (nth_error (filter (group_selected l t d)
                         (seq 0 (group_count l d))) i) as [k |] eqn:Ek;
    [| discriminate].
  apply filter_nth_error_origin in Ek as (j & Hij & Hj & _).
  assert (k = j).
  { pose proof (nth_error_Some (seq 0 (group_count l d)) j) as Hlt.
    rewrite Hj, length_seq in Hlt.
    assert (Hjn : (j < group_count l d)%nat) by (apply Hlt; discriminate).
    rewrite nth_error_nth' with (d := 0%nat) in Hj
      by (rewrite length_seq; exact Hjn).
    rewrite seq_nth in Hj by exact Hjn. injection Hj as <-. reflexivity. }
  subst k. cbn [option_map] in Hseg. injection Hseg as Hs _.
  rewrite <- Hs. nia.
Qed.

Lemma process_video_variants (s : Sound) (input : string) (t : F) (d : Z) :
  VideoClipperV1.process_video s input t d =
  result_map (map (retarget input)) (VideoClipper.process_video s input t d).
Proof.
  unfold VideoClipperV1.process_video, VideoClipper.process_video.
  change (VideoClipperV1.get_audio_intensity s)
    with (VideoClipper.get_audio_intensity (F := F) s).
  destruct (VideoClipper.get_audio_intensity s) as [out | e]; simpl;
    [| reflexivity].
  apply select_clips_variants.
Qed.

End MoreSelectorExtras.

(* ================================================================== *)
(** * The effects of videoClipper.py *)
(* ================================================================== *)

Section EffectFacts.
Context {F Sound Video W : Type}.
Context {NP : Numpy F} {NF : NumpyFormat F} {PD : Pydub Sound}.
Context {HO : HostOps W Sound Video}.

(** ** The Analyzer *)

Lemma analyze_chunk_io (acc : list F) (c : Sound) (w : W) :
  VideoClipperIO.analyze_chunk acc c w =
  ((if chunk_reported c then print (invalid_mean_message c) w else w),
   Done (VideoClipper.analyze_chunk acc c)).
Proof.
  unfold VideoClipperIO.analyze_chunk, VideoClipper.analyze_chunk,
    chunk_reported, chunk_empty, chunk_negative, invalid_mean_message.
  destruct (Py.len (get_array_of_samples c) =? 0); [reflexivity |].
  destruct (np_lt _ _); [reflexivity |].
  destruct (negb (np_isnan _)); reflexivity.
Qed.

Lemma analyze_fold_io (cs : list Sound) :
  forall (acc : list F) (w : W),
    Host.for_each VideoClipperIO.analyze_chunk cs acc w =
    (print_all (map invalid_mean_message (filter chunk_reported cs)) w,
     Done (fold_left VideoClipper.analyze_chunk cs acc)).
Proof.
  induction cs as [| c cs IH]; intros acc w; [reflexivity |].
  cbn [Host.for_each fold_left filter]. unfold Host.bind.
  rewrite analyze_chunk_io, IH.
  destruct (chunk_reported c); reflexivity.
Qed.

(** ** The selection loop *)

Lemma perform_app (a b : list clip_request) (w : W) :
  perform (a ++ b) w = Host.bind (perform a) (fun _ => perform b) w.
Proof.
  revert w. induction a as [| r a IH]; intros w; [reflexivity |].
  cbn [app perform]. unfold Host.bind in *.
  destruct (VideoClipperIO.create_video_clip _ _ _ _ w) as [w1 [[] | e]];
    [apply IH | reflexivity].
Qed.

Lemma select_step_clips_prefix (video : string) (l : list F) (t : F) (d : Z)
    (st : loop_state) (i : Z) :
  exists new,
    st_clips (VideoClipper.select_step video l t d st i) = st_clips st ++ new.
Proof.
  unfold VideoClipper.select_step.
  destruct (np_gt _ _); simpl; eexists; [reflexivity |].
  symmetry. apply app_nil_r.
Qed.

Lemma select_fold_clips_prefix (video : string) (l : list F) (t : F) (d : Z)
    (idx : list Z) :
  forall st, exists new,
    st_clips (fold_left (VideoClipper.select_step video l t d) idx st) =
    st_clips st ++ new.
Proof.
  induction idx as [| i idx IH]; intros st; simpl.
  - exists []. symmetry. apply app_nil_r.
  - destruct (IH (VideoClipper.select_step video l t d st i)) as [n2 E2].
    destruct (select_step_clips_prefix video l t d st i) as [n1 E1].
    exists (n1 ++ n2). now rewrite E2, E1, app_assoc.
Qed.

Lemma skipn_app_exact {A} (a b : list A) : skipn (length a) (a ++ b) = b.
Proof.
  rewrite skipn_app, skipn_all, Nat.sub_diag. reflexivity.
Qed.

(** One iteration performs the request the pure step records, if any. *)
Lemma select_step_io (video : string) (l : list F) (t : F) (d : Z)
    (st : loop_state) (i : Z) (w : W) :
  VideoClipperIO.select_step video l t d
    (st_start_time st, st_clip_count st) i w =
  Host.bind
    (perform (skipn (length (st_clips st))
                (st_clips (VideoClipper.select_step video l t d st i))))
    (fun _ =>
       Host.ret
         (st_start_time (VideoClipper.select_step video l t d st i),
          st_clip_count (VideoClipper.select_step video l t d st i))) w.
Proof.
  unfold VideoClipperIO.select_step, VideoClipper.select_step.
  cbn [fst snd].
  destruct (np_gt _ _); cbn [st_clips st_start_time st_clip_count].
  - rewrite skipn_app_exact. cbn [perform].
    unfold VideoClipper.create_video_clip.
    cbn [video_file start_time duration output_filename].
    unfold Host.bind, Host.ret.
    destruct (VideoClipperIO.create_video_clip _ _ _ _ w) as [w1 [[] | e]];
      reflexivity.
  - rewrite skipn_all. reflexivity.
Qed.

Lemma select_fold_io (video : string) (l : list F) (t : F) (d : Z)
    (idx : list Z) :
  forall (st : loop_state) (w : W),
    Host.for_each (VideoClipperIO.select_step video l t d) idx
      (st_start_time st, st_clip_count st) w =
    Host.bind
      (perform
         (skipn (length (st_clips st))
            (st_clips
               (fold_left (VideoClipper.select_step video l t d) idx st))))
      (fun _ =>
         Host.ret
           (st_start_time
              (fold_left (VideoClipper.select_step video l t d) idx st),
            st_clip_count
              (fold_left (VideoClipper.select_step video l t d) idx st))) w.
Proof.
  induction idx as [| i idx IH]; intros st w.
  - cbn [Host.for_each fold_left]. now rewrite skipn_all.
  - cbn [Host.for_each fold_left].
    set (st1 := VideoClipper.select_step video l t d st i).
    set (st2 := fold_left (VideoClipper.select_step video l t d) idx st1).
    destruct (select_step_clips_prefix video l t d st i) as [n1 E1].
    destruct (select_fold_clips_prefix video l t d idx st1) as [n2 E2].
    fold st1 in E1. fold st2 in E2.
    assert (Hn1 : skipn (length (st_clips st)) (st_clips st1) = n1)
      by (rewrite E1; apply skipn_app_exact).
    assert (Hn12 : skipn (length (st_clips st)) (st_clips st2) = n1 ++ n2)
      by (rewrite E2, E1, <- app_assoc; apply skipn_app_exact).
    assert (Hn2 : skipn (length (st_clips st1)) (st_clips st2) = n2)
      by (rewrite E2; apply skipn_app_exact).
    unfold Host.bind. rewrite select_step_io. fold st1.
    rewrite Hn1, Hn12, perform_app. unfold Host.bind.
    destruct (perform n1 w) as [w1 [[] | e]]; [| reflexivity].
    unfold Host.ret at 1.
    rewrite IH. fold st2. rewrite Hn2. reflexivity.
Qed.

End EffectFacts.

Section EffectTheorems.
Context {F Sound Video W : Type}.
Context {NP : Numpy F} {NF : NumpyFormat F} {PD : Pydub Sound}.
Context {HO : HostOps W Sound Video}.

(** X9.  [get_audio_intensity] with its effects: if the audio file
    cannot be decoded the exception passes through; otherwise the
    function returns the intensities of the pure Analyzer and prints one
    line per chunk that has samples and a negative mean square, in chunk
    order.  Empty chunks and chunks with a NaN RMS are dropped without a
    message. *)
Theorem get_audio_intensity_effects (path : string) (w : W) :
  match audio_from_file path w with
  | (w1, Done sound) =>
      exists out : list F,
        VideoClipper.get_audio_intensity sound = Ok out /\
        VideoClipperIO.get_audio_intensity path w =
        (print_all
           (map invalid_mean_message
              (filter chunk_reported
                 (map (chunk_at sound) (seq 0 (chunk_count sound))))) w1,
         Done out)
  | (w1, Fail e) =>
      VideoClipperIO.get_audio_intensity (F := F) path w = (w1, Fail e)
  end.
Proof.
  unfold VideoClipperIO.get_audio_intensity, Host.bind.
  destruct (audio_from_file path w) as [w1 [sound | e]]; [| reflexivity].
  eexists. split; [apply get_audio_intensity_spec |].
  rewrite chunks_of_spec. cbn [Host.lift]. unfold Host.ret at 1.
  rewrite analyze_fold_io. now rewrite analyze_fold.
Qed.

Lemma select_clips_performs (video : string) (l : list F) (t : F) (d : Z)
    (w : W) :
  VideoClipperIO.select_clips video l t d w =
  match VideoClipper.select_clips video l t d with
  | Ok reqs => perform reqs w
  | Raise e => (w, Fail (PyExn e))
  end.
Proof.
  unfold VideoClipperIO.select_clips, VideoClipper.select_clips.
  destruct (Py.range 0 (Py.len l) (d * 10)) as [idx | e];
    cbn [Host.lift Py.bind]; [| reflexivity].
  unfold Host.bind at 1. unfold Host.ret at 1.
  unfold Host.bind at 1.
  rewrite (select_fold_io video l t d idx (mk_state 0 0 [])).
  cbn [st_clips length skipn]. unfold Host.bind, Host.ret.
  destruct (perform _ w) as [w1 [[] | e]]; reflexivity.
Qed.

(** X10.  The selection loop with its effects does what the list of
    requests says: it calls [create_video_clip] once per request, in
    order, stops at the first call that fails, and with a zero clip
    duration raises [ValueError] before any call. *)
Theorem select_clips_effects (video : string) (l : list F) (t : F) (d : Z)
    (w : W) :
  VideoClipperIO.select_clips video l t d w =
  match VideoClipper.select_clips video l t d with
  | Ok reqs => perform reqs w
  | Raise e => (w, Fail (PyExn e))
  end.
Proof. apply select_clips_performs. Qed.

Lemma process_video_course (input : string) (t : F) (d : Z) (w : W) :
  match VideoClipperIO.prepare input w with
  | (w1, Fail e) => VideoClipperIO.process_video input t d w = (w1, Fail e)
  | (w1, Done l) =>
      match
        VideoClipper.select_clips VideoClipper.converted_video_file l t d
      with
      | Raise e =>
          VideoClipperIO.process_video input t d w = (w1, Fail (PyExn e))
      | Ok reqs =>
          match perform reqs w1 with
          | (w2, Fail e) =>
              VideoClipperIO.process_video input t d w = (w2, Fail e)
          | (w2, Done _) =>
              VideoClipperIO.process_video input t d w =
              VideoClipperIO.cleanup w2
          end
      end
  end.
Proof.
  unfold VideoClipperIO.process_video, Host.bind.
  destruct (VideoClipperIO.prepare input w) as [w1 [l | e]]; [| reflexivity].
  rewrite select_clips_performs.
  destruct (VideoClipper.select_clips _ l t d) as [reqs | e]; [| reflexivity].
  destruct (perform reqs w1) as [w2 [[] | e]]; reflexivity.
Qed.

(** X11.  The course of [process_video]: a failure while preparing
    (output directory, transcoding, audio extraction, analysis) ends the
    run there; otherwise the clips of the request list are written in
    order; the temporary files are removed only after every clip was
    written, and a failure of the loop leaves them in place. *)
Theorem process_video_run (input : string) (t : F) (d : Z) (w : W) :
  match VideoClipperIO.prepare input w with
  | (w1, Fail e) => VideoClipperIO.process_video input t d w = (w1, Fail e)
  | (w1, Done l) =>
      match
        VideoClipper.select_clips VideoClipper.converted_video_file l t d
      with
      | Raise e =>
          VideoClipperIO.process_video input t d w = (w1, Fail (PyExn e))
      | Ok reqs =>
          match perform reqs w1 with
          | (w2, Fail e) =>
              VideoClipperIO.process_video input t d w = (w2, Fail e)
          | (w2, Done _) =>
              VideoClipperIO.process_video input t d w =
              VideoClipperIO.cleanup w2
          end
      end
  end.
Proof. apply process_video_course. Qed.

(** X12.  With a clip duration of 0 [process_video] does all the
    preparation (transcoding and audio extraction included), then raises
    [ValueError]: no clip is written and neither temporary file is
    removed. *)
Theorem process_video_zero_duration (input : string) (t : F) (w : W) :
  VideoClipperIO.process_video input t 0 w =
  match VideoClipperIO.prepare (F := F) input w with
  | (w1, Done _) =>
      (w1, Fail (PyExn (ValueError "range() arg 3 must not be zero")))
  | (w1, Fail e) => (w1, Fail e)
  end.
Proof.
  pose proof (process_video_course input t 0 w) as H.
  destruct (VideoClipperIO.prepare input w) as [w1 [l | e]]; exact H.
Qed.

(** The ways the final cleanup can end. *)
Lemma cleanup_outcome (w : W) :
  match os_remove VideoClipperIO.audio_file w with
  | (w1, Fail e) => VideoClipperIO.cleanup w = (w1, Fail e)
  | (w1, Done _) =>
      match os_remove VideoClipper.converted_video_file w1 with
      | (w2, Done _) => VideoClipperIO.cleanup w = (w2, Done tt)
      | (w2, Fail PermissionError) =>
          VideoClipperIO.cleanup w =
          (print ("Could not delete temp_converted_video.mp4. " ++
                  "It may still be in use.") w2, Done tt)
      | (w2, Fail e) => VideoClipperIO.cleanup w = (w2, Fail e)
      end
  end.
Proof.
  unfold VideoClipperIO.cleanup, Host.bind, Host.except_permission.
  destruct (os_remove VideoClipperIO.audio_file w) as [w1 [[] | e]];
    [| reflexivity].
  destruct (os_remove VideoClipper.converted_video_file w1)
    as [w2 [[] | [e | | n]]]; reflexivity.
Qed.

(** [os.remove] deletes: after it returned, the path is gone. *)
Hypothesis remove_deletes :
  forall (p : string) (w w1 : W),
    os_remove p w = (w1, Done tt) -> os_path_exists p w1 = false.

Section CleanupLaws.

(** [os.remove] creates no file, whether it returns or raises, and
    printing leaves the files alone. *)
Hypothesis remove_creates_nothing :
  forall (p q : string) (w w1 : W) (o : outcome unit),
    os_remove q w = (w1, o) ->
    os_path_exists p w = false -> os_path_exists p w1 = false.
Hypothesis print_keeps_files :
  forall (p s : string) (w : W),
    os_path_exists p (print s w) = os_path_exists p w.

(** X13.  A run of [process_video] that ends normally leaves no
    [temp_audio.wav], and it leaves the transcoded copy only when its
    last action was to print that the copy could not be deleted. *)
Theorem process_video_removes_audio (input : string) (t : F) (d : Z)
    (w w' : W) :
  VideoClipperIO.process_video input t d w = (w', Done tt) ->
  os_path_exists VideoClipperIO.audio_file w' = false /\
  (os_path_exists VideoClipper.converted_video_file w' = false \/
   exists w4 : W,
     w' = print ("Could not delete temp_converted_video.mp4. " ++
                 "It may still be in use.") w4).
Proof.
  unfold VideoClipperIO.process_video, Host.bind.
  destruct (VideoClipperIO.prepare input w) as [w1 [l | e]];
    [| discriminate].
  destruct (VideoClipperIO.select_clips _ l t d w1) as [w2 [[] | e]];
    [| discriminate].
  pose proof (cleanup_outcome w2) as Hc.
  destruct (os_remove VideoClipperIO.audio_file w2) as [w3 [[] | e]] eqn:Ea;
    [| rewrite Hc; discriminate].
  pose proof (remove_deletes _ _ _ Ea) as Hgone.
  destruct (os_remove VideoClipper.converted_video_file w3)
    as [w4 [[] | [e | | n]]] eqn:Eb;
    rewrite Hc; try discriminate; intros H; injection H as <-.
  - split; [now apply (remove_creates_nothing _ _ _ _ _ Eb) |].
    left. now apply (remove_deletes _ _ _ Eb).
  - split.
    + rewrite print_keeps_files.
      now apply (remove_creates_nothing _ _ _ _ _ Eb).
    + right. now exists w4.
Qed.

End CleanupLaws.

(** X14.  [convert_audio_codec] never starts ffmpeg while the output
    path exists: either removing the old output raises, and ffmpeg is
    not started, or ffmpeg is started in a state without the output
    file.  When input and output are the same existing path, ffmpeg is
    therefore started after its own input has been removed. *)
Theorem convert_audio_codec_fresh_output (input output : string) (w : W) :
  (exists w1 : W,
      os_path_exists output w1 = false /\
      VideoClipperIO.convert_audio_codec input output w =
      subprocess_run (VideoClipperIO.ffmpeg_command input output) w1) \/
  (exists (w1 : W) (e : raised),
      os_path_exists output w = true /\
      os_remove output w = (w1, Fail e) /\
      VideoClipperIO.convert_audio_codec input output w = (w1, Fail e)).
Proof.
  unfold VideoClipperIO.convert_audio_codec, Host.bind.
  destruct (os_path_exists output w) eqn:Ex.
  - destruct (os_remove output w) as [w1 [[] | e]] eqn:Er.
    + left. exists w1. split; [now apply (remove_deletes output w) | reflexivity].
    + right. exists w1, e. repeat split.
  - left. exists w. split; [exact Ex | reflexivity].
Qed.

End EffectTheorems.

Lemma sim_remove_deletes (p : string) (w w1 : Sim.machine) :
  os_remove p w = (w1, Done tt) -> os_path_exists p w1 = false.
Proof.
  simpl. unfold Sim.remove.
  destruct (Sim.has p (Sim.locked w)); [discriminate |].
  destruct (Sim.has p (Sim.files w)); [| discriminate].
  intros H. injection H as <-. simpl. unfold Sim.has.
  induction (Sim.files w) as [| q fs IH]; simpl; [reflexivity |].
  destruct (String.eqb_spec p q) as [-> | Hne]; simpl; [exact IH |].
  destruct (String.eqb_spec p q); [contradiction | exact IH].
Qed.

Lemma sim_has_filter (p : string) (keep : string -> bool) (fs : list string) :
  Sim.has p fs = false -> Sim.has p (filter keep fs) = false.
Proof.
  unfold Sim.has. induction fs as [| q fs IH]; simpl; [reflexivity |].
  intros H. apply orb_false_iff in H as [Hq Hfs].
  destruct (keep q); simpl; [rewrite Hq |]; now apply IH.
Qed.

Lemma sim_remove_creates_nothing (p q : string) (w w1 : Sim.machine)
    (o : outcome unit) :
  os_remove q w = (w1, o) ->
  os_path_exists p w = false -> os_path_exists p w1 = false.
Proof.
  simpl. unfold Sim.remove.
  destruct (Sim.has q (Sim.locked w)); [intros H; now injection H as <- _ |].
  destruct (Sim.has q (Sim.files w)); intros H; injection H as <- _;
    [| trivial].
  simpl. apply sim_has_filter.
Qed.

Lemma sim_print_keeps_files (p s : string) (w : Sim.machine) :
  os_path_exists p (print s w) = os_path_exists p w.
Proof. reflexivity. Qed.

(* ================================================================== *)
(** * Runs on the simulated machine *)
(* ================================================================== *)

(** A normal run: one clip is written and both temporary files are
    gone at the end. *)
Example sim_run_plain :
  let r := VideoClipperIO.process_video (F := spec_float) "pubg.mp4"
             (Binary32.of_Z 2) 1 SimSamples.plain in
  snd r = Done tt /\
  Sim.files (fst r) =
    ["pubg.mp4"; "output_clips"; "output_clips/clip_1.mp4"]%string /\
  Sim.stdout (fst r) = [].
Proof. vm_compute. repeat split. Qed.

(** A zero clip duration: the run raises after the preparation and both
    temporary files stay. *)
Example sim_run_zero_duration :
  let r := VideoClipperIO.process_video (F := spec_float) "pubg.mp4"
             (Binary32.of_Z 2) 0 SimSamples.plain in
  snd r = Fail (PyExn (ValueError "range() arg 3 must not be zero")) /\
  Sim.files (fst r) =
    ["pubg.mp4"; "output_clips"; "temp_converted_video.mp4";
     "temp_audio.wav"]%string.
Proof. vm_compute. repeat split. Qed.

(** A transcoded copy that cannot be deleted: the run ends normally,
    with a message, and the copy stays. *)
Example sim_run_copy_locked :
  let r := VideoClipperIO.process_video (F := spec_float) "pubg.mp4"
             (Binary32.of_Z 2) 1 SimSamples.copy_locked in
  snd r = Done tt /\
  Sim.files (fst r) =
    ["pubg.mp4"; "output_clips"; "temp_converted_video.mp4";
     "output_clips/clip_1.mp4"]%string /\
  Sim.stdout (fst r) =
    ["Could not delete temp_converted_video.mp4. It may still be in use."]%string.
Proof. vm_compute. repeat split. Qed.

(** An input that bears the name of the transcoded copy is removed
    before ffmpeg is started on it. *)
Example sim_run_same_name :
  let r := VideoClipperIO.process_video (F := spec_float)
             "temp_converted_video.mp4" (Binary32.of_Z 2) 1
             SimSamples.same_name in
  snd r = Fail (OtherError "CalledProcessError") /\
  Sim.files (fst r) = ["output_clips"]%string.
Proof. vm_compute. repeat split. Qed.

(* ================================================================== *)
(** * Instances of the further theorems *)
(* ================================================================== *)

Lemma select_clips_numbering_witness :
  nth_error
    (requested (VideoClipper.select_clips "pubg.mp4" loud_25
                  (Binary32.of_Z 5) 1)) 1 =
  Some (mk_clip "pubg.mp4" 1 1 "output_clips/clip_2.mp4") /\
  output_filename (mk_clip "pubg.mp4" 1 1 "output_clips/clip_2.mp4") =
  clip_name 2.
Proof.
  assert (H : nth_error
                (requested (VideoClipper.select_clips "pubg.mp4" loud_25
                              (Binary32.of_Z 5) 1)) 1 =
              Some (mk_clip "pubg.mp4" 1 1 "output_clips/clip_2.mp4"))
    by (vm_compute; reflexivity).
  split; [exact H |].
  exact (proj1 (select_clips_numbering "pubg.mp4" loud_25 (Binary32.of_Z 5) 1
                  1%nat _ H)).
Defined.

Lemma select_clips_bounds_witness :
  0 < 1 /\
  Py.len (requested (VideoClipper.select_clips "pubg.mp4" loud_25
                       (Binary32.of_Z 5) 1))
    <= ceil_div (Py.len loud_25) (1 * 10).
Proof.
  assert (H : 0 < 1) by lia.
  split; [exact H |].
  exact (proj1 (select_clips_bounds "pubg.mp4" loud_25 (Binary32.of_Z 5) 1 H)).
Defined.

Lemma select_clips_start_lower_bound_witness :
  0 < 1 /\
  nth_error
    (requested (VideoClipper.select_clips "pubg.mp4" (level 1 10 ++ loud_25)
                  (Binary32.of_Z 5) 1)) 0 =
  Some (mk_clip "pubg.mp4" 1 1 "output_clips/clip_1.mp4") /\
  Z.of_nat 0 * 1 <= start_time (mk_clip "pubg.mp4" 1 1 "output_clips/clip_1.mp4").
Proof.
  assert (H : 0 < 1) by lia.
  assert (Hn : nth_error
                 (requested (VideoClipper.select_clips "pubg.mp4"
                               (level 1 10 ++ loud_25) (Binary32.of_Z 5) 1)) 0 =
               Some (mk_clip "pubg.mp4" 1 1 "output_clips/clip_1.mp4"))
    by (vm_compute; reflexivity).
  split; [exact H |]. split; [exact Hn |].
  exact (select_clips_start_lower_bound "pubg.mp4" (level 1 10 ++ loud_25)
           (Binary32.of_Z 5) 1 0%nat _ H Hn).
Defined.

Lemma select_clips_concat_witness :
  0 < 1 /\
  Py.len (level 1 10) = Z.of_nat 1 * (1 * 10) /\
  segments (VideoClipper.select_clips "pubg.mp4" (level 1 10 ++ loud_25)
              (Binary32.of_Z 5) 1) =
  segments (VideoClipper.select_clips "pubg.mp4" (level 1 10)
              (Binary32.of_Z 5) 1) ++
  map (shift_segment (Z.of_nat 1 * 1))
    (segments (VideoClipper.select_clips "pubg.mp4" loud_25
                 (Binary32.of_Z 5) 1)).
Proof.
  assert (H : 0 < 1) by lia.
  assert (Ha : Py.len (level 1 10) = Z.of_nat 1 * (1 * 10)) by reflexivity.
  split; [exact H |]. split; [exact Ha |].
  exact (select_clips_concat (level 1 10) loud_25 1 1%nat H Ha "pubg.mp4"
           (Binary32.of_Z 5)).
Defined.



Lemma convert_audio_codec_fresh_output_witness :
  (forall (p : string) (w w1 : Sim.machine),
      os_remove p w = (w1, Done tt) -> os_path_exists p w1 = false) /\
  ((exists w1 : Sim.machine,
       os_path_exists "temp_converted_video.mp4" w1 = false /\
       VideoClipperIO.convert_audio_codec "temp_converted_video.mp4"
         "temp_converted_video.mp4" SimSamples.same_name =
       subprocess_run
         (VideoClipperIO.ffmpeg_command "temp_converted_video.mp4"
            "temp_converted_video.mp4") w1) \/
   (exists (w1 : Sim.machine) (e : raised),
       os_path_exists "temp_converted_video.mp4" SimSamples.same_name = true /\
       os_remove "temp_converted_video.mp4" SimSamples.same_name =
       (w1, Fail e) /\
       VideoClipperIO.convert_audio_codec "temp_converted_video.mp4"
         "temp_converted_video.mp4" SimSamples.same_name = (w1, Fail e))).
Proof.
  split; [exact sim_remove_deletes |].
  exact (convert_audio_codec_fresh_output sim_remove_deletes
           "temp_converted_video.mp4" "temp_converted_video.mp4"
           SimSamples.same_name).
Defined.

Lemma process_video_removes_audio_witness :
  snd (VideoClipperIO.process_video (F := spec_float) "pubg.mp4"
         (Binary32.of_Z 2) 1 SimSamples.copy_locked) = Done tt /\
  os_path_exists VideoClipperIO.audio_file
    (fst (VideoClipperIO.process_video (F := spec_float) "pubg.mp4"
            (Binary32.of_Z 2) 1 SimSamples.copy_locked)) = false.
Proof.
  assert (H : VideoClipperIO.process_video (F := spec_float) "pubg.mp4"
                (Binary32.of_Z 2) 1 SimSamples.copy_locked =
              (fst (VideoClipperIO.process_video (F := spec_float) "pubg.mp4"
                      (Binary32.of_Z 2) 1 SimSamples.copy_locked), Done tt))
    by (vm_compute; reflexivity).
  split; [vm_compute; reflexivity |].
  exact (proj1 (process_video_removes_audio sim_remove_deletes
                  sim_remove_creates_nothing sim_print_keeps_files
                  "pubg.mp4" (Binary32.of_Z 2) 1 SimSamples.copy_locked _ H)).
Defined.
